(** * Blockchain-test harness of execution-specs: discovery, decoding, replay

    A shallow embedding of [tests/helpers/load_state_tests.py] and of the
    Shanghai test scenario [tests/shanghai/test_state_transition.py].

    Python values are modelled as follows.
    - Parsed JSON is the inductive [Json]; a JSON object is the association
      list of the [dict] that [json.load] builds, in insertion order.
    - An exception is a value of [PyExn]; a computation that may raise
      returns [PyExn + A].
    - Calls on the outside world (opening a fixture file, yielding a test
      case, invoking the state transition, the mocked validator, closing a
      state store) are recorded, in program order, in an event trace carried
      by the writer/error monad [Run].
    - The fork under test ([Load], [ethereum.rlp], the fork module) and the
      regular-expression engine ([re]) are interfaces: type classes. *)

From stdpp Require Import base option list strings.
From Stdlib Require Import ZArith.
From Stdlib.Strings Require Import Byte Ascii.

Set Default Proof Using "Type".
Set Warnings "-register-all".

(** ** Python values *)

(** What [json.load] returns. A number is an integer: the harness reads
    no number but the genesis header's [chainId]. *)
Inductive Json : Type :=
| JNull
| JBool (b : bool)
| JNum (n : Z)
| JStr (s : string)
| JArr (xs : list Json)
| JObj (items : list (string * Json)).

Definition Bytes : Type := list byte.
Definition Hash32 : Type := Bytes.

(** Exceptions. [Ethereum cls] is an exception class of the [ethereum]
    package (such as [InvalidBlock]), named by its class name;
    [DidNotRaise] is what [pytest.raises] fails with when its body
    returns. *)
Inductive PyExn : Type :=
| KeyError (key : string)
| TypeError
| AttributeError
| IndexError
| OverflowError
| ValueError
| OSError (path : string)
| ReError (pattern : string)
| NoTestsFound
| NoPostState
| AssertionError
| DidNotRaise
| Ethereum (cls : string).

#[global] Instance byte_eq_dec : EqDecision byte := Byte.byte_eq_dec.
#[global] Instance PyExn_eq_dec : EqDecision PyExn.
Proof. solve_decision. Defined.

(** ** Computations that may raise *)

Module Result.
Definition bind {E A B} (m : E + A) (f : A -> E + B) : E + B :=
  match m with
  | inl e => inl e
  | inr a => f a
  end.

Definition map_err {E F A} (f : E -> F) (m : E + A) : F + A :=
  match m with
  | inl e => inl (f e)
  | inr a => inr a
  end.

(** A list comprehension whose element expression may raise. *)
Fixpoint traverse {E A B} (f : A -> E + B) (xs : list A) : E + list B :=
  match xs with
  | [] => inr []
  | x :: rest =>
      bind (f x) (fun y => bind (traverse f rest) (fun ys => inr (y :: ys)))
  end.
End Result.

Notation "'try!' x <- m ; k" := (Result.bind m (fun x => k))
  (at level 20, x pattern, m at level 100, k at level 200,
   format "'[v' 'try!'  x  <-  m ; '/' k ']'").

(** Inversion of a bind that returned. *)
Ltac bind_inr H :=
  repeat match type of H with
    | Result.bind ?m _ = inr _ =>
        let E := fresh "E" in
        destruct m as [?|?] eqn:E; simpl in H; [discriminate H|]
    | (let '(_, _) := ?p in _) = inr _ => destruct p; simpl in H
    end.

(** ** Computations that may raise and that leave a trace *)

Module Run.
Section Run.
Context {Ev E : Type}.

Definition t (A : Type) : Type := list Ev * (E + A).

Definition ret {A} (a : A) : t A := ([], inr a).
Definition raise {A} (e : E) : t A := ([], inl e).
Definition emit (ev : Ev) : t unit := ([ev], inr tt).
Definition lift {A} (m : E + A) : t A := ([], m).

Definition bind {A B} (m : t A) (f : A -> t B) : t B :=
  match m with
  | (tr, inl e) => (tr, inl e)
  | (tr, inr a) => let '(tr', r) := f a in (tr ++ tr', r)
  end.

(** [try: m except e: h e]. *)
Definition catch {A} (m : t A) (h : E -> t A) : t A :=
  match m with
  | (tr, inl e) => let '(tr', r) := h e in (tr ++ tr', r)
  | (tr, inr a) => (tr, inr a)
  end.

(** [m] with its outcome turned into a value: what a caller that
    catches every exception of [m] sees. *)
Definition attempt {A} (m : t A) : t (E + A) := (fst m, inr (snd m)).

(** The value of [m] together with the events [m] left. *)
Definition listen {A} (m : t A) : t (list Ev * A) :=
  match m with
  | (tr, inl e) => (tr, inl e)
  | (tr, inr a) => (tr, inr (tr, a))
  end.

Definition trace {A} (m : t A) : list Ev := fst m.
Definition outcome {A} (m : t A) : E + A := snd m.

(** [for x in xs: body x]. *)
Fixpoint for_each {A} (body : A -> t unit) (xs : list A) : t unit :=
  match xs with
  | [] => ret tt
  | x :: rest => bind (body x) (fun _ => for_each body rest)
  end.
End Run.

Definition map_err {Ev E F A} (f : E -> F) (m : @t Ev E A) : @t Ev F A :=
  (fst m, Result.map_err f (snd m)).

Arguments t : clear implicits.
End Run.

Notation "'do!' x <- m ; k" := (Run.bind m (fun x => k))
  (at level 20, x pattern, m at level 100, k at level 200,
   format "'[v' 'do!'  x  <-  m ; '/' k ']'").

(** ** Python operators on parsed JSON *)

Module Py.
(** [d[key]] on the items of a dict. *)
Fixpoint assoc (key : string) (items : list (string * Json)) : option Json :=
  match items with
  | [] => None
  | (k, v) :: rest => if String.eqb k key then Some v else assoc key rest
  end.

(** [obj[key]] with a [str] key: a dict is looked up, anything else is
    not subscriptable by a string. *)
Definition getitem (obj : Json) (key : string) : PyExn + Json :=
  match obj with
  | JObj items =>
      match assoc key items with
      | Some v => inr v
      | None => inl (KeyError key)
      end
  | _ => inl TypeError
  end.

(** [obj.get(key, fallback)]. *)
Definition get (obj : Json) (key : string) (fallback : Json) : PyExn + Json :=
  match obj with
  | JObj items => inr (default fallback (assoc key items))
  | _ => inl AttributeError
  end.

(** [x == s] for a [str] [s]. *)
Definition eq_str (x : Json) (s : string) : bool :=
  match x with
  | JStr s' => String.eqb s' s
  | _ => false
  end.

(** [needle in hay] on [str]: substring search. *)
Fixpoint str_contains (needle hay : string) : bool :=
  String.prefix needle hay
  || match hay with
     | EmptyString => false
     | String _ rest => str_contains needle rest
     end.

(** [key in obj] with a [str] key: key membership for a dict, substring
    for a [str], element membership for a list, [TypeError] otherwise. *)
Definition contains (key : string) (obj : Json) : PyExn + bool :=
  match obj with
  | JObj items => inr (bool_decide (is_Some (assoc key items)))
  | JStr s => inr (str_contains key s)
  | JArr xs => inr (existsb (fun x => eq_str x key) xs)
  | _ => inl TypeError
  end.

(** [data.items()]. *)
Definition items (data : Json) : PyExn + list (string * Json) :=
  match data with
  | JObj kvs => inr kvs
  | _ => inl AttributeError
  end.

(** Truth value of a [str]. *)
Definition truthy (s : string) : bool := negb (String.eqb s "").

(** [any(xs)] on a list of [str]. *)
Definition any (xs : list string) : bool := existsb truthy xs.

(** [os.path.join(a, b)] on POSIX. *)
Definition ends_with_slash (a : string) : bool :=
  match last (String.list_ascii_of_string a) with
  | Some c => Ascii.eqb c "/"%char
  | None => false
  end.

Definition path_join (a b : string) : string :=
  if String.prefix "/" b then b
  else if String.eqb a "" || ends_with_slash a then a +:+ b
  else a +:+ "/" +:+ b.
End Py.

(** ** The outside world of discovery *)

(** [open(path)] followed by [json.load], and the comprehension over
    [os.walk(test_dir)] and [glob(... "*.json")]. *)
Record FileSystem : Type := {
  read_json : string -> PyExn + Json;
  walk_json : string -> list string
}.

(** The [re] module: [re.compile] ([None] when it raises [re.error]) and
    [Pattern.search(s) is not None]. *)
Class Re : Type := {
  Pattern : Type;
  re_compile : string -> option Pattern;
  re_search : Pattern -> string -> bool
}.

Record TestCase : Type := {
  test_file : string;
  test_key : string
}.

Inductive Mark : Type := slow | bigmem.

(** What [fetch_state_test_files] yields: the bare test case
    ([marks = None]) or [pytest.param(case, marks=...)]. *)
Record Param : Type := {
  case : TestCase;
  marks : option Mark
}.

Inductive FsEvent : Type :=
| EvWalk (dir : string)
| EvOpen (path : string)
| EvYield (p : Param).

#[global] Instance TestCase_eq_dec : EqDecision TestCase.
Proof. solve_decision. Defined.
#[global] Instance Mark_eq_dec : EqDecision Mark.
Proof. solve_decision. Defined.
#[global] Instance Param_eq_dec : EqDecision Param.
Proof. solve_decision. Defined.
#[global] Instance FsEvent_eq_dec : EqDecision FsEvent.
Proof. solve_decision. Defined.

(** ** Discovery: [load_json_fixture] and [fetch_state_test_files] *)

Module Discovery.
Abbreviation Gen := (Run.t FsEvent PyExn).

(** The loop that fills [found_keys]. *)
Fixpoint found_keys (items : list (string * Json)) (network : string)
  : PyExn + list string :=
  match items with
  | [] => inr []
  | (key, test) :: rest =>
      try! has_network <- Py.contains "network" test;
      if negb has_network then found_keys rest network
      else
        try! declared <- Py.getitem test "network";
        try! found <- found_keys rest network;
        inr (if Py.eq_str declared network then key :: found else found)
  end.

(** The test cases the generator [load_json_fixture] yields, in order;
    it opens the file and raises before its first [yield]. *)
Definition load_json_fixture (fs : FileSystem) (test_file network : string)
  : Gen (list TestCase) :=
  do! _ <- Run.emit (EvOpen test_file);
  do! data <- Run.lift (read_json fs test_file);
  do! items <- Run.lift (Py.items data);
  do! keys <- Run.lift (found_keys items network);
  if negb (Py.any keys) then Run.raise NoTestsFound
  else Run.ret (map (fun k => {| test_file := test_file; test_key := k |}) keys).

(** An item of a fixture file whose test object has no [network] key. *)
Definition lacks_network (kv : string * Json) : Prop :=
  exists fields, kv.2 = JObj fields /\ Py.assoc "network" fields = None.

Section Fetch.
Context `{Re}.

(** [[re.compile(x) for x in patterns]]. *)
Definition compile_all (patterns : list string) : PyExn + list Pattern :=
  Result.traverse
    (fun x => match re_compile x with
              | Some p => inr p
              | None => inl (ReError x)
              end)
    patterns.

(** [any(x.search(s) for x in compiled)]. *)
Definition any_search (compiled : list Pattern) (s : string) : bool :=
  existsb (fun x => re_search x s) compiled.

(** The [_identifier] of a test case. *)
Definition identifier (tc : TestCase) : string :=
  "(" +:+ test_file tc +:+ "|" +:+ test_key tc +:+ ")".

(** The body of the inner [for _test_case in ...] loop. *)
Definition classify (all_slow all_big_memory all_ignore : list Pattern)
    (tc : TestCase) : Gen unit :=
  let _identifier := identifier tc in
  if any_search all_ignore _identifier then Run.ret tt
  else if any_search all_slow _identifier then
    Run.emit (EvYield {| case := tc; marks := Some slow |})
  else if any_search all_big_memory _identifier then
    Run.emit (EvYield {| case := tc; marks := Some bigmem |})
  else Run.emit (EvYield {| case := tc; marks := None |}).

(** The list [files_to_iterate]: the files of [only_in] under
    [test_dir] or, when [only_in] is empty, the JSON files found under
    [test_dir] whose path no ignore pattern matches. *)
Definition files_to_iterate (fs : FileSystem) (test_dir : string)
    (only_in : list string) (all_ignore : list Pattern) : Gen (list string) :=
  if negb (length only_in =? 0)%nat then
    Run.ret (map (fun test_path => Py.path_join test_dir test_path) only_in)
  else
    do! _ <- Run.emit (EvWalk test_dir);
    Run.ret (filter (fun full_path => any_search all_ignore full_path = false)
                    (walk_json fs test_dir)).

(** One iteration of [for _test_file in files_to_iterate], with its
    [try ... except NoTestsFound: continue]. *)
Definition visit_file (fs : FileSystem) (network : string)
    (all_slow all_big_memory all_ignore : list Pattern)
    (_test_file : string) : Gen unit :=
  Run.catch
    (do! cases <- load_json_fixture fs _test_file network;
     Run.for_each (classify all_slow all_big_memory all_ignore) cases)
    (fun e => match e with
              | NoTestsFound => Run.ret tt
              | _ => Run.raise e
              end).

(** The generator [fetch_state_test_files], run to exhaustion: the
    trace holds what it walked, opened and yielded, in order, and the
    outcome is the exception that ended it, if any. *)
Definition fetch_state_test_files (fs : FileSystem)
    (test_dir network : string)
    (only_in slow_list big_memory_list ignore_list : list string) : Gen unit :=
  do! all_slow <- Run.lift (compile_all slow_list);
  do! all_big_memory <- Run.lift (compile_all big_memory_list);
  do! all_ignore <- Run.lift (compile_all ignore_list);
  do! files <- files_to_iterate fs test_dir only_in all_ignore;
  Run.for_each (visit_file fs network all_slow all_big_memory all_ignore) files.

(** The yielded values of a run, in order. *)
Definition yielded {A} (g : Gen A) : list Param :=
  omap (fun ev => match ev with EvYield p => Some p | _ => None end)
       (Run.trace g).

(** The files a run opened, in order. *)
Definition opened {A} (g : Gen A) : list string :=
  omap (fun ev => match ev with EvOpen p => Some p | _ => None end)
       (Run.trace g).

(** *** Discovery in the specification's words

    "A test object participates only if its [network] field equals the
    requested network string exactly", and for each participating key the
    identifier is evaluated against the pattern sets: "drop if ignore
    matches; else tag slow if slow matches; else tag big_memory if
    big-memory matches; else untagged". *)

Definition is_object (test : Json) : Prop := exists fields, test = JObj fields.

Definition participates (network : string) (kv : string * Json) : bool :=
  match kv.2 with
  | JObj fields =>
      match Py.assoc "network" fields with
      | Some declared => Py.eq_str declared network
      | None => false
      end
  | _ => false
  end.

Definition participating_keys (items : list (string * Json)) (network : string)
  : list string :=
  map fst (List.filter (participates network) items).

Definition tagged (all_slow all_big_memory all_ignore : list Pattern)
    (tc : TestCase) : option Param :=
  if any_search all_ignore (identifier tc) then None
  else Some {| case := tc;
               marks := if any_search all_slow (identifier tc) then Some slow
                        else if any_search all_big_memory (identifier tc)
                        then Some bigmem
                        else None |}.

(** What the specification has a file contribute: its participating
    keys, in the file's order, less the ignored ones, each with its
    tag. *)
Definition expected_params (fs : FileSystem) (network : string)
    (all_slow all_big_memory all_ignore : list Pattern) (file : string)
  : list Param :=
  match read_json fs file with
  | inr (JObj items) =>
      omap (tagged all_slow all_big_memory all_ignore)
           (map (fun k => {| test_file := file; test_key := k |})
                (participating_keys items network))
  | _ => []
  end.

(** A file the harness reads as the specification describes it: a
    mapping of test names to test objects, in which the participating
    keys, if any, are not all the empty string. *)
Definition regular_file (fs : FileSystem) (network : string) (file : string) : Prop :=
  exists items,
    read_json fs file = inr (JObj items)
    /\ Forall (fun kv => is_object kv.2) items
    /\ (participating_keys items network = []
        \/ Py.any (participating_keys items network) = true).
End Fetch.
End Discovery.

(** ** The fork under test *)

(** The types of the fork's [fork_types] module; [==] on headers (the
    mock compares recorded calls) and on states is decidable. *)
Class ForkTypes : Type := {
  Header : Type;
  Transaction : Type;
  Withdrawal : Type;
  State : Type;
  Header_eq_dec :: EqDecision Header;
  State_eq_dec :: EqDecision State
}.

(** [load.Block]: three fields, and a fourth on forks with withdrawals. *)
Record Block `{ForkTypes} : Type := {
  header : Header;
  transactions : list Transaction;
  ommers : list Header;
  withdrawals : option (list Withdrawal)
}.

Module BlockChain.
(** [load.BlockChain(blocks=..., state=..., chain_id=...)]. *)
Record t `{ForkTypes} : Type := {
  blocks : list Block;
  state : State;
  chain_id : Z
}.
End BlockChain.

(** What one call of the fork's [state_transition(chain, block)] does, as
    seen from the harness: it returns, having updated the chain in place
    ([Done] holds the chain as updated), it raises, or it calls the module
    attribute [validate_proof_of_work] on a header and goes on according
    to how that call ended ([None]: it returned; [Some e]: it raised
    [e]). *)
Inductive EngineProg `{ForkTypes} : Type :=
| Done (chain : BlockChain.t)
| Throw (e : PyExn)
| CallPow (h : Header) (k : option PyExn -> EngineProg).

(** The [Load] object of a fork, with what the harness uses of
    [ethereum.rlp], [ethereum.utils.hexadecimal], [ethereum.base_types],
    [ethereum.exceptions] and the fork module.
    - [json_to_block] decodes one element of the fixture's [blocks] array
      into the block, its declared header hash and its raw encoding.
    - [has_withdrawals_root h] is [hasattr(h, "withdrawals_root")].
    - [validate_proof_of_work h] is [None] when the fork's own validator
      returns and [Some e] when it raises [e].
    - [ethereum_subclass cls target] tells whether the exception class
      [cls] of the [ethereum] package is [target] or one of its
      subclasses. *)
Class Load `{ForkTypes} : Type := {
  json_to_header : Json -> PyExn + Header;
  json_to_state : Json -> PyExn + State;
  json_to_block : Json -> PyExn + (Block * Hash32 * Bytes);
  proof_of_stake : bool;
  state_transition : BlockChain.t -> Block -> EngineProg;
  has_withdrawals_root : Header -> bool;
  rlp_hash : Header -> Hash32;
  rlp_encode : Block -> Bytes;
  validate_proof_of_work : Header -> option PyExn;
  hex_to_bytes : Json -> PyExn + Bytes;
  U64 : Json -> PyExn + Z;
  ethereum_subclass : string -> string -> bool
}.

(** ** Decoding: [load_test] *)

Module TestData.
(** The dict that [load_test] returns. *)
Record t `{ForkTypes} : Type := {
  test_file : string;
  test_key : string;
  genesis_header : Header;
  chain_id : Z;
  genesis_header_hash : Hash32;
  genesis_block_rlp : Bytes;
  last_block_hash : Hash32;
  pre_state : State;
  expected_post_state : State;
  blocks : list Block;
  block_header_hashes : list Hash32;
  block_rlps : list Bytes;
  ignore_pow_validation : bool
}.
End TestData.

Module Decoder.
Section Decoder.
Context `{Load}.

(** Modelled from the spec: the loop of [Load.json_to_blocks] over the
    elements of the [blocks] array, one block, one declared header hash
    and one raw encoding for each, in fixture order (see
    [json_to_blocks]). *)
Fixpoint json_to_blocks_loop (json_blocks : list Json)
  : PyExn + (list Block * list Hash32 * list Bytes) :=
  match json_blocks with
  | [] => inr ([], [], [])
  | json_block :: rest =>
      try! (block, block_header_hash, block_rlp) <- json_to_block json_block;
      try! (blocks, block_header_hashes, block_rlps) <- json_to_blocks_loop rest;
      inr (block :: blocks,
           block_header_hash :: block_header_hashes,
           block_rlp :: block_rlps)
  end.

(** Modelled from the spec: [Load.json_to_blocks], of
    [ethereum_spec_tools/evm_tools/fixture_loader.py], is not among the
    sources. The spec has it decode the ordered array [blocks] so that
    "block list decoding must preserve fixture order" and "each block's
    header hash and raw encoding are captured independently from the
    structured fields": each element of the array gives one block, one
    declared header hash and one raw encoding, appended to three lists in
    fixture order; a value that is no array, and an element that does not
    decode, end the decoding with the exception raised there. *)
Definition json_to_blocks (json_blocks : Json)
  : PyExn + (list Block * list Hash32 * list Bytes) :=
  match json_blocks with
  | JArr xs => json_to_blocks_loop xs
  | _ => inl TypeError
  end.

(** [try: json_data["postState"] except KeyError: raise NoPostState]. *)
Definition raw_post_state (json_data : Json) : PyExn + Json :=
  match Py.getitem json_data "postState" with
  | inl (KeyError _) => inl NoPostState
  | r => r
  end.

(** [load_test(test_case, load)], statement by statement; the entries
    of the returned dict are evaluated in the order they are written. *)
Definition load_test (fs : FileSystem) (test_case : TestCase)
  : PyExn + TestData.t :=
  let test_file := test_file test_case in
  let test_key := test_key test_case in
  try! data <- read_json fs test_file;
  try! json_data <- Py.getitem data test_key;
  try! json_blocks <- Py.getitem json_data "blocks";
  try! (blocks, block_header_hashes, block_rlps) <- json_to_blocks json_blocks;
  try! raw_post_state <- raw_post_state json_data;
  try! post_state <- json_to_state raw_post_state;
  try! genesis_json <- Py.getitem json_data "genesisBlockHeader";
  try! genesis_header <- json_to_header genesis_json;
  try! genesis_json <- Py.getitem json_data "genesisBlockHeader";
  try! chain_id_json <- Py.get genesis_json "chainId" (JNum 1);
  try! chain_id <- U64 chain_id_json;
  try! genesis_json <- Py.getitem json_data "genesisBlockHeader";
  try! hash_json <- Py.getitem genesis_json "hash";
  try! genesis_header_hash <- hex_to_bytes hash_json;
  try! genesis_rlp_json <- Py.getitem json_data "genesisRLP";
  try! genesis_block_rlp <- hex_to_bytes genesis_rlp_json;
  try! last_block_hash_json <- Py.getitem json_data "lastblockhash";
  try! last_block_hash <- hex_to_bytes last_block_hash_json;
  try! pre_json <- Py.getitem json_data "pre";
  try! pre_state <- json_to_state pre_json;
  try! seal_engine <- Py.getitem json_data "sealEngine";
  inr {| TestData.test_file := test_file;
         TestData.test_key := test_key;
         TestData.genesis_header := genesis_header;
         TestData.chain_id := chain_id;
         TestData.genesis_header_hash := genesis_header_hash;
         TestData.genesis_block_rlp := genesis_block_rlp;
         TestData.last_block_hash := last_block_hash;
         TestData.pre_state := pre_state;
         TestData.expected_post_state := post_state;
         TestData.blocks := blocks;
         TestData.block_header_hashes := block_header_hashes;
         TestData.block_rlps := block_rlps;
         TestData.ignore_pow_validation := Py.eq_str seal_engine "NoProof" |}.
End Decoder.
End Decoder.

(** ** Replay: [run_blockchain_st_test] and [add_blocks_to_chain] *)

(** The calls the replay makes on the fork, in program order:
    [load.state_transition(chain, block)] as it is entered, a call of the
    fork's own [validate_proof_of_work], a call recorded by the mock that
    [patch(..., autospec=True)] puts in its place, and
    [load.close_state(state)]. *)
Inductive Event `{ForkTypes} : Type :=
| EvApply (chain : BlockChain.t) (block : Block)
| EvValidatePow (h : Header)
| EvMockedPow (h : Header)
| EvClose (s : State).

(** How a replay ends when it does not return, by the place the
    exception leaves from. The names are the specification's; [exception]
    gives the Python exception that propagates. *)
Inductive ReplayFailure : Type :=
| LoadFailed (e : PyExn)
| GenesisHashMismatch
| BlockHashMismatch (idx : nat)
| BlockEncodingMismatch (idx : nat)
| DeclaredTooShort (idx : nat)
| StateTransitionFailed (idx : nat) (cause : PyExn)
| HookCallsMismatch
| NoLastBlock
| FinalHashMismatch
| PostStateMismatch.

Definition exception (f : ReplayFailure) : PyExn :=
  match f with
  | LoadFailed e => e
  | StateTransitionFailed _ cause => cause
  | DeclaredTooShort _ | NoLastBlock => IndexError
  | GenesisHashMismatch | BlockHashMismatch _ | BlockEncodingMismatch _
  | HookCallsMismatch | FinalHashMismatch | PostStateMismatch => AssertionError
  end.

#[global] Instance ReplayFailure_eq_dec : EqDecision ReplayFailure.
Proof. solve_decision. Defined.

Module Mock.
Section Mock.
Context {A : Type} `{EqDecision A}.

(** [calls[:len(expected)] == expected]. *)
Fixpoint starts_with (expected calls : list A) : bool :=
  match expected, calls with
  | [], _ => true
  | _ :: _, [] => false
  | e :: expected', c :: calls' => bool_decide (e = c) && starts_with expected' calls'
  end.

(** [expected in mock_calls], what [assert_has_calls(expected,
    any_order=False)] asserts: the expected calls are a run of
    consecutive recorded calls. *)
Fixpoint has_calls (expected calls : list A) : bool :=
  starts_with expected calls
  || match calls with
     | [] => false
     | _ :: calls' => has_calls expected calls'
     end.
End Mock.
End Mock.

Module Replay.
Section Replay.
Context `{Load}.
Implicit Types (test_data : TestData.t) (chain : BlockChain.t) (block : Block).
Implicit Types (validator : Header -> Run.t Event PyExn unit).

Abbreviation M := (Run.t Event ReplayFailure).

(** [assert cond], failing as [f]. *)
Definition assert (cond : bool) (f : ReplayFailure) : M unit :=
  if cond then Run.ret tt else Run.raise f.

(** [xs[idx]], failing as [f] when out of range. *)
Definition index {A} (xs : list A) (idx : nat) (f : ReplayFailure) : M A :=
  match xs !! idx with
  | Some x => Run.ret x
  | None => Run.raise f
  end.

(** The two things the name [validate_proof_of_work] of the fork module
    can stand for during a replay. *)
Definition real_validator (h : Header) : Run.t Event PyExn unit :=
  do! _ <- Run.emit (EvValidatePow h);
  match validate_proof_of_work h with
  | Some e => Run.raise e
  | None => Run.ret tt
  end.

Definition mocked_pow_validator (h : Header) : Run.t Event PyExn unit :=
  Run.emit (EvMockedPow h).

(** The exception a call ended with, if any. *)
Definition raised {A} (r : PyExn + A) : option PyExn :=
  match r with
  | inl e => Some e
  | inr _ => None
  end.

(** One call of [state_transition] with [validator] standing for
    [validate_proof_of_work]. *)
Fixpoint run_engine (validator : Header -> Run.t Event PyExn unit)
    (p : EngineProg) : Run.t Event PyExn BlockChain.t :=
  match p with
  | Done chain => Run.ret chain
  | Throw e => Run.raise e
  | CallPow h k =>
      do! r <- Run.attempt (validator h);
      run_engine validator (k (raised r))
  end.

(** The loop of [add_blocks_to_chain] from index [idx] on; the chain the
    fork updates in place is threaded through. *)
Fixpoint add_blocks_from (validator : Header -> Run.t Event PyExn unit)
    (test_data : TestData.t) (idx : nat) (chain : BlockChain.t)
    (blocks : list Block) : M BlockChain.t :=
  match blocks with
  | [] => Run.ret chain
  | block :: rest =>
      do! declared_hash <-
        index (TestData.block_header_hashes test_data) idx (DeclaredTooShort idx);
      do! _ <- assert (bool_decide (rlp_hash (header block) = declared_hash))
                      (BlockHashMismatch idx);
      do! declared_rlp <-
        index (TestData.block_rlps test_data) idx (DeclaredTooShort idx);
      do! _ <- assert (bool_decide (rlp_encode block = declared_rlp))
                      (BlockEncodingMismatch idx);
      do! _ <- Run.emit (EvApply chain block);
      do! chain <- Run.map_err (StateTransitionFailed idx)
                     (run_engine validator (state_transition chain block));
      add_blocks_from validator test_data (S idx) chain rest
  end.

(** [add_blocks_to_chain(chain, test_data, load)]. *)
Definition add_blocks_to_chain (validator : Header -> Run.t Event PyExn unit)
    (chain : BlockChain.t) (test_data : TestData.t) : M BlockChain.t :=
  add_blocks_from validator test_data 0 chain (TestData.blocks test_data).

(** [mocked_pow_validator.mock_calls]: the headers the mock was called
    with, in order. *)
Definition mock_calls (tr : list Event) : list Header :=
  omap (fun ev => match ev with EvMockedPow h => Some h | _ => None end) tr.

(** [load.Block( *parameters)] on the genesis header. *)
Definition genesis_block (genesis_header : Header) : Block :=
  {| header := genesis_header;
     transactions := [];
     ommers := [];
     withdrawals := if has_withdrawals_root genesis_header then Some [] else None |}.

(** The last four statements of [run_blockchain_st_test]: the two
    assertions on the chain the blocks were added to, and the two calls
    of [load.close_state]. *)
Definition finish (test_data : TestData.t) (chain : BlockChain.t) : M unit :=
  do! last_block <- match last (BlockChain.blocks chain) with
                    | Some b => Run.ret b
                    | None => Run.raise NoLastBlock
                    end;
  do! _ <- assert (bool_decide (rlp_hash (header last_block)
                                = TestData.last_block_hash test_data))
                  FinalHashMismatch;
  do! _ <- assert (bool_decide (BlockChain.state chain
                                = TestData.expected_post_state test_data))
                  PostStateMismatch;
  do! _ <- Run.emit (EvClose (BlockChain.state chain));
  Run.emit (EvClose (TestData.expected_post_state test_data)).

(** The body of [run_blockchain_st_test] after [load_test]. The assertion
    on [genesis_block_rlp] is commented out in the source and so is
    absent here. *)
Definition replay (test_data : TestData.t) : M unit :=
  let genesis_header := TestData.genesis_header test_data in
  let genesis_block := genesis_block genesis_header in
  do! _ <- assert (bool_decide (rlp_hash genesis_header
                                = TestData.genesis_header_hash test_data))
                  GenesisHashMismatch;
  let chain := {| BlockChain.blocks := [genesis_block];
                  BlockChain.state := TestData.pre_state test_data;
                  BlockChain.chain_id := TestData.chain_id test_data |} in
  do! chain <-
    (if negb (TestData.ignore_pow_validation test_data) || proof_of_stake then
       add_blocks_to_chain real_validator chain test_data
     else
       do! (tr, chain) <-
         Run.listen (add_blocks_to_chain mocked_pow_validator chain test_data);
       do! _ <- assert (Mock.has_calls (map header (TestData.blocks test_data))
                                       (mock_calls tr))
                       HookCallsMismatch;
       Run.ret chain);
  finish test_data chain.

(** [run_blockchain_st_test(test_case, load)]: [load_test], then the
    replay of what it decoded. *)
Definition run_blockchain_st_test (fs : FileSystem) (test_case : TestCase)
  : M unit :=
  do! test_data <- Run.lift (Result.map_err LoadFailed (Decoder.load_test fs test_case));
  replay test_data.

(** The state stores a run closed, in order. *)
Definition closed (tr : list Event) : list State :=
  omap (fun ev => match ev with EvClose s => Some s | _ => None end) tr.

(** The blocks a run called [state_transition] on, in order. *)
Definition applied (tr : list Event) : list Block :=
  omap (fun ev => match ev with EvApply _ b => Some b | _ => None end) tr.

(** *** Vocabulary of the properties *)

(** The calls of [state_transition] in a trace, each with the chain it
    was given. *)
Definition applications (tr : list Event) : list (BlockChain.t * Block) :=
  omap (fun ev => match ev with EvApply c b => Some (c, b) | _ => None end) tr.

(** The calls of the fork's own validator in a trace. *)
Definition validate_calls (tr : list Event) : list Header :=
  omap (fun ev => match ev with EvValidatePow h => Some h | _ => None end) tr.

(** [test_data] with another declared genesis encoding. *)
Definition set_genesis_block_rlp (test_data : TestData.t) (encoding : Bytes)
  : TestData.t :=
  {| TestData.test_file := TestData.test_file test_data;
     TestData.test_key := TestData.test_key test_data;
     TestData.genesis_header := TestData.genesis_header test_data;
     TestData.chain_id := TestData.chain_id test_data;
     TestData.genesis_header_hash := TestData.genesis_header_hash test_data;
     TestData.genesis_block_rlp := encoding;
     TestData.last_block_hash := TestData.last_block_hash test_data;
     TestData.pre_state := TestData.pre_state test_data;
     TestData.expected_post_state := TestData.expected_post_state test_data;
     TestData.blocks := TestData.blocks test_data;
     TestData.block_header_hashes := TestData.block_header_hashes test_data;
     TestData.block_rlps := TestData.block_rlps test_data;
     TestData.ignore_pow_validation := TestData.ignore_pow_validation test_data |}.

(** The replay substitutes the validator: the fixture asks for it and the
    fork is a proof-of-work fork. *)
Definition bypass (test_data : TestData.t) : bool :=
  negb (negb (TestData.ignore_pow_validation test_data) || proof_of_stake).

(** The validator in force while the blocks of [test_data] are added. *)
Definition validator_of (test_data : TestData.t) : Header -> Run.t Event PyExn unit :=
  if bypass test_data then mocked_pow_validator else real_validator.

(** The chain the replay starts from. *)
Definition genesis_chain (test_data : TestData.t) : BlockChain.t :=
  {| BlockChain.blocks := [genesis_block (TestData.genesis_header test_data)];
     BlockChain.state := TestData.pre_state test_data;
     BlockChain.chain_id := TestData.chain_id test_data |}.

(** The replay of the first [n] blocks. *)
Definition add_blocks_upto validator test_data chain (n : nat) : M BlockChain.t :=
  add_blocks_from validator test_data 0 chain (take n (TestData.blocks test_data)).

(** Both declared values of block [idx] are those of [block]. *)
Definition checked test_data (idx : nat) block : Prop :=
  TestData.block_header_hashes test_data !! idx = Some (rlp_hash (header block))
  /\ TestData.block_rlps test_data !! idx = Some (rlp_encode block).

(** A validator leaves no event that [proj] keeps. *)
Definition quiet {X} (proj : Event -> option X) validator : Prop :=
  forall h, omap proj (Run.trace (validator h)) = [].

(** How the loop can end after [n] calls of [state_transition], from
    index [idx] on. *)
Definition ended test_data (idx : nat) (blocks : list Block) (n : nat)
    (outcome : ReplayFailure + BlockChain.t) : Prop :=
  match outcome with
  | inr _ => n = length blocks
  | inl (BlockHashMismatch i) =>
      i = idx + n
      /\ exists block, blocks !! n = Some block
           /\ TestData.block_header_hashes test_data !! i
              <> Some (rlp_hash (header block))
  | inl (BlockEncodingMismatch i) =>
      i = idx + n
      /\ exists block, blocks !! n = Some block
           /\ TestData.block_rlps test_data !! i <> Some (rlp_encode block)
  | inl (DeclaredTooShort i) =>
      i = idx + n
      /\ n < length blocks
      /\ (TestData.block_header_hashes test_data !! i = None
          \/ TestData.block_rlps test_data !! i = None)
  | inl (StateTransitionFailed i _) => S i = idx + n
  | inl _ => False
  end.

(** A fork whose [state_transition] calls [validate_proof_of_work] once,
    on the header of the block it is given, before anything else. *)
Definition validates_header_once : Prop :=
  forall chain block,
    exists k,
      state_transition chain block = CallPow (header block) k
      /\ forall r, match k r with CallPow _ _ => False | _ => True end.

(** How a replay can end after [n] calls of [state_transition]. *)
Definition replay_ended test_data (n : nat) (outcome : ReplayFailure + unit) : Prop :=
  match outcome with
  | inl GenesisHashMismatch => n = 0
  | inl (BlockHashMismatch i) =>
      i = n
      /\ exists block, TestData.blocks test_data !! i = Some block
           /\ TestData.block_header_hashes test_data !! i
              <> Some (rlp_hash (header block))
  | inl (BlockEncodingMismatch i) =>
      i = n
      /\ exists block, TestData.blocks test_data !! i = Some block
           /\ TestData.block_rlps test_data !! i <> Some (rlp_encode block)
  | inl (DeclaredTooShort i) =>
      i = n
      /\ n < length (TestData.blocks test_data)
      /\ (TestData.block_header_hashes test_data !! i = None
          \/ TestData.block_rlps test_data !! i = None)
  | inl (StateTransitionFailed i _) => S i = n
  | inl (LoadFailed _) => False
  | _ => n = length (TestData.blocks test_data)
  end.
End Replay.
End Replay.

(** ** The Shanghai scenario: [test_general_state_tests_4895] *)

Module Shanghai.
Section Shanghai.
Context `{Load}.

(** How pytest reports a test function: it returned, it called
    [pytest.xfail], or an exception left it. *)
Inductive Outcome : Type :=
| Passed
| XFailed
| Errored (e : PyExn).

(** [any(test in test_case["test_file"] for test in test_list)]. *)
Definition is_in_list (test_case : TestCase) (test_list : list string) : bool :=
  existsb (fun test => Py.str_contains test (test_file test_case)) test_list.

Definition invalid_rlp_tests : list string :=
  [ "bc4895-withdrawals/withdrawalsRLPlessElements.json";
    "bc4895-withdrawals/withdrawalsRLPmoreElements.json";
    "bc4895-withdrawals/shanghaiWithoutWithdrawalsRLP.json";
    "bc4895-withdrawals/withdrawalsRLPnotAList.json" ].

Definition invalid_bounds_tests : list string :=
  [ "bc4895-withdrawals/withdrawalsAmountBounds.json";
    "bc4895-withdrawals/withdrawalsAddressBounds.json";
    "bc4895-withdrawals/withdrawalsIndexBounds.json";
    "bc4895-withdrawals/withdrawalsValidatorIndexBounds.json" ].

Definition invalid_block_tests : list string :=
  [ "bc4895-withdrawals/incorrectWithdrawalsRoot.json" ].

(** [isinstance(e, ethereum.exceptions.<target>)]. *)
Definition isinstance (e : PyExn) (target : string) : bool :=
  match e with
  | Ethereum cls => ethereum_subclass cls target
  | _ => false
  end.

(** [with pytest.raises(target): body], on how [body] ended. *)
Definition pytest_raises (target : string) (body : PyExn + unit) : PyExn + unit :=
  match body with
  | inr _ => inl DidNotRaise
  | inl e => if isinstance e target then inr tt else inl e
  end.

(** How [run_shanghai_blockchain_st_tests(test_case)] ends. *)
Definition run_shanghai_blockchain_st_tests (fs : FileSystem)
    (test_case : TestCase) : PyExn + unit :=
  Result.map_err exception
    (Run.outcome (Replay.run_blockchain_st_test fs test_case)).

Definition test_general_state_tests_4895 (fs : FileSystem)
    (test_case : TestCase) : Outcome :=
  let body :=
    if is_in_list test_case invalid_rlp_tests then
      pytest_raises "RLPDecodingError" (run_shanghai_blockchain_st_tests fs test_case)
    else if is_in_list test_case invalid_bounds_tests then
      pytest_raises "InvalidBlock" (run_shanghai_blockchain_st_tests fs test_case)
    else if is_in_list test_case invalid_block_tests then
      pytest_raises "InvalidBlock" (run_shanghai_blockchain_st_tests fs test_case)
    else run_shanghai_blockchain_st_tests fs test_case in
  match body with
  | inr _ => Passed
  | inl NoPostState => XFailed
  | inl e => Errored e
  end.
End Shanghai.
End Shanghai.

(** ** Test identifiers: [idfn] *)

Module Ids.
(** [s.split("/")]: the pieces of [s] between its slashes, empty pieces
    included; a string without a slash gives itself alone. *)
Fixpoint split_slash (s : string) : list string :=
  match s with
  | EmptyString => [EmptyString]
  | String c rest =>
      if Ascii.eqb c "/"%char then EmptyString :: split_slash rest
      else match split_slash rest with
           | piece :: pieces => String c piece :: pieces
           | [] => [String c EmptyString]
           end
  end.

(** [xs[-2]]. *)
Definition second_last {A} (xs : list A) : PyExn + A :=
  match rev xs with
  | _ :: x :: _ => inr x
  | _ => inl IndexError
  end.

(** What pytest hands to [idfn]: a test case (a dict) or a value of
    another type. *)
Inductive Arg : Type :=
| ADict (test_case : TestCase)
| AOther.

(** [idfn(test_case)]: the name of the folder of the test file and the
    test key for a dict, [None] (the function falls off its end) for
    anything else. *)
Definition idfn (arg : Arg) : PyExn + option string :=
  match arg with
  | ADict test_case =>
      try! folder_name <- second_last (split_slash (test_file test_case));
      inr (Some ((folder_name +:+ " - ") +:+ test_key test_case))
  | AOther => inr None
  end.

(** No slash in [s]. *)
Fixpoint slash_free (s : string) : bool :=
  match s with
  | EmptyString => true
  | String c rest => negb (Ascii.eqb c "/"%char) && slash_free rest
  end.
End Ids.

(** ** The other Shanghai scenarios *)

Module Scenarios.
Import Shanghai.
Section Scenarios.
Context `{Load}.

(** The [try ... except NoPostState: pytest.xfail(...)] around the body
    of each scenario. *)
Definition report (body : PyExn + unit) : Outcome :=
  match body with
  | inr _ => Passed
  | inl NoPostState => XFailed
  | inl e => Errored e
  end.

Definition test_general_state_tests_3860 (fs : FileSystem)
    (test_case : TestCase) : Outcome :=
  report (run_shanghai_blockchain_st_tests fs test_case).

Definition test_execution_specs_generated_tests (fs : FileSystem)
    (test_case : TestCase) : Outcome :=
  report
    (if Py.str_contains "withdrawals_use_value_in_tx" (test_file test_case)
        && String.eqb (test_key test_case) "000_shanghai"
     then pytest_raises "InvalidBlock" (run_shanghai_blockchain_st_tests fs test_case)
     else run_shanghai_blockchain_st_tests fs test_case).

(** The fields of a fixture object that [load_test] subscripts. *)
Definition required_fields : list string :=
  [ "blocks"; "postState"; "genesisBlockHeader"; "genesisRLP";
    "lastblockhash"; "pre"; "sealEngine" ].

(** The calls of [state_transition] form a chain from [chain]: the first
    is on [chain], and each next one is on the chain the call before it
    returned with. *)
Fixpoint linked (validator : Header -> Run.t Event PyExn unit)
    (chain : BlockChain.t) (calls : list (BlockChain.t * Block)) : Prop :=
  match calls with
  | [] => True
  | (c, block) :: rest =>
      c = chain
      /\ match rest with
         | [] => True
         | _ :: _ =>
             exists chain',
               Run.outcome (Replay.run_engine validator (state_transition c block))
               = inr chain'
               /\ linked validator chain' rest
         end
  end.
End Scenarios.
End Scenarios.

(** ** A small fork and its fixtures, to run the harness on

    A proof-of-work fork small enough to evaluate: a header is a block
    number and a nonce, the seal is valid when the nonce is 42, a block
    extends the chain when its number is the chain's length, and the state
    is the number of transactions applied so far. Its [state_transition]
    validates the seal of the block's header and then the seal of each
    of the block's ommers. *)

Module Toy.

Record hdr : Type := { number : nat; nonce : nat }.

#[global] Instance hdr_eq_dec : EqDecision hdr.
Proof. solve_decision. Defined.

Definition types : ForkTypes :=
  {| Header := hdr; Transaction := nat; Withdrawal := nat; State := nat |}.

Definition byte_of_nat (n : nat) : byte :=
  default x00 (Byte.of_N (N.of_nat n mod 256)).

(** [bytes.fromhex] after [remove_hex_prefix]. *)
Definition hex_digit (c : ascii) : option N :=
  let n := N_of_ascii c in
  if (48 <=? n)%N && (n <=? 57)%N then Some (n - 48)%N
  else if (97 <=? n)%N && (n <=? 102)%N then Some (n - 87)%N
  else if (65 <=? n)%N && (n <=? 70)%N then Some (n - 55)%N
  else None.

Fixpoint hex_pairs (cs : list ascii) : option (list byte) :=
  match cs with
  | [] => Some []
  | hi :: lo :: rest =>
      match hex_digit hi, hex_digit lo, hex_pairs rest with
      | Some h, Some l, Some bs => option_map (fun b => b :: bs) (Byte.of_N (16 * h + l))
      | _, _, _ => None
      end
  | _ => None
  end.

Definition remove_hex_prefix (s : string) : string :=
  if String.prefix "0x" s then String.substring 2 (String.length s - 2) s else s.

Definition unhex (j : Json) : PyExn + Bytes :=
  match j with
  | JStr s =>
      match hex_pairs (String.list_ascii_of_string (remove_hex_prefix s)) with
      | Some bs => inr bs
      | None => inl ValueError
      end
  | _ => inl TypeError
  end.

Definition to_nat (j : Json) : PyExn + nat :=
  match j with
  | JNum n => if (0 <=? n)%Z then inr (Z.to_nat n) else inl ValueError
  | _ => inl TypeError
  end.

Definition to_header (j : Json) : PyExn + hdr :=
  try! n <- Py.getitem j "number";
  try! n <- to_nat n;
  try! w <- Py.getitem j "nonce";
  try! w <- to_nat w;
  inr {| number := n; nonce := w |}.

Definition json_to_list {A} (f : Json -> PyExn + A) (j : Json) : PyExn + list A :=
  match j with
  | JArr xs => Result.traverse f xs
  | _ => inl TypeError
  end.

Definition to_block (j : Json) : PyExn + (@Block types * Hash32 * Bytes) :=
  try! h_json <- Py.getitem j "blockHeader";
  try! h <- to_header h_json;
  try! txs_json <- Py.getitem j "transactions";
  try! txs <- json_to_list to_nat txs_json;
  try! ommers_json <- Py.getitem j "uncleHeaders";
  try! os <- json_to_list to_header ommers_json;
  try! hash_json <- Py.getitem h_json "hash";
  try! hash <- unhex hash_json;
  try! rlp_json <- Py.getitem j "rlp";
  try! rlp <- unhex rlp_json;
  inr (@Build_Block types h txs os None, hash, rlp).

Definition hash (h : hdr) : Hash32 :=
  [byte_of_nat (number h); byte_of_nat (nonce h)].

Definition encode (b : @Block types) : Bytes :=
  hash (@header types b)
  ++ [byte_of_nat (length (@transactions types b));
      byte_of_nat (length (@ommers types b))].

Definition pow (h : hdr) : option PyExn :=
  if (nonce h =? 42)%nat then None else Some (Ethereum "InvalidBlock").

Fixpoint validate_ommers (os : list hdr) (k : @EngineProg types)
  : @EngineProg types :=
  match os with
  | [] => k
  | o :: rest =>
      @CallPow types o (fun r =>
        match r with
        | Some e => Throw e
        | None => validate_ommers rest k
        end)
  end.

Definition transition (chain : @BlockChain.t types) (b : @Block types)
  : @EngineProg types :=
  @CallPow types (@header types b) (fun r =>
    match r with
    | Some e => Throw e
    | None =>
        validate_ommers (@ommers types b)
          (if (number (@header types b)
               =? length (@BlockChain.blocks types chain))%nat
           then Done {| BlockChain.blocks := @BlockChain.blocks types chain ++ [b];
                        BlockChain.state :=
                          (@BlockChain.state types chain
                           + length (@transactions types b))%nat;
                        BlockChain.chain_id := @BlockChain.chain_id types chain |}
           else Throw (Ethereum "InvalidBlock"))
    end).

Definition u64 (j : Json) : PyExn + Z :=
  match j with
  | JNum n =>
      if (0 <=? n)%Z && (n <? 2 ^ 64)%Z then inr n else inl OverflowError
  | _ => inl TypeError
  end.

Definition subclass (cls target : string) : bool :=
  String.eqb cls target
  || (String.eqb cls "RLPDecodingError" && String.eqb target "InvalidBlock").

Definition load : @Load types :=
  @Build_Load types to_header to_nat to_block false transition (fun _ => false)
    hash encode pow unhex u64 subclass.

(** The same fork without the validation of the ommers' seals. *)
Definition transition_once (chain : @BlockChain.t types) (b : @Block types)
  : @EngineProg types :=
  @CallPow types (@header types b) (fun r =>
    match r with
    | Some e => Throw e
    | None =>
        if (number (@header types b) =? length (@BlockChain.blocks types chain))%nat
        then Done {| BlockChain.blocks := @BlockChain.blocks types chain ++ [b];
                     BlockChain.state :=
                       (@BlockChain.state types chain
                        + length (@transactions types b))%nat;
                     BlockChain.chain_id := @BlockChain.chain_id types chain |}
        else Throw (Ethereum "InvalidBlock")
    end).

Definition load_once : @Load types :=
  @Build_Load types to_header to_nat to_block false transition_once (fun _ => false)
    hash encode pow unhex u64 subclass.

(** A regular-expression engine for patterns without metacharacters: the
    pattern is searched as a substring, and a pattern with an opening
    parenthesis does not compile. *)
Definition re : Re :=
  {| Pattern := string;
     re_compile := fun p => if Py.str_contains "(" p then None else Some p;
     re_search := fun p s => Py.str_contains p s |}.

(** Fixture building blocks. *)
Definition json_header (n w : Z) (hash : string) : Json :=
  JObj [("number", JNum n); ("nonce", JNum w); ("hash", JStr hash)].

Definition json_block (n w : Z) (hash rlp : string) (txs ommers : list Json) : Json :=
  JObj [("blockHeader", json_header n w hash);
        ("transactions", JArr txs);
        ("uncleHeaders", JArr ommers);
        ("rlp", JStr rlp)].

Definition fixture (seal : string) (genesis_hash genesis_rlp last_hash : string)
    (pre post : Z) (blocks : list Json) : Json :=
  JObj [("network", JStr "Shanghai");
        ("genesisBlockHeader", json_header 0 42 genesis_hash);
        ("genesisRLP", JStr genesis_rlp);
        ("pre", JNum pre);
        ("postState", JNum post);
        ("blocks", JArr blocks);
        ("lastblockhash", JStr last_hash);
        ("sealEngine", JStr seal)].

(** A file system with one fixture file. *)
Definition one_file (path : string) (content : Json) : FileSystem :=
  {| read_json := fun p => if String.eqb p path then inr content else inl (OSError p);
     walk_json := fun _ => [path] |}.

(** Block 1 carries two transactions; block 2 carries one transaction
    and one ommer. Neither seal is valid (the nonce is 7, not 42), as in a
    fixture sealed with [NoProof]. *)
Definition block1 : Json := json_block 1 7 "0x0107" "0x01070200" [JNum 5; JNum 6] [].

Definition block2 (n : Z) (hash : string) : Json :=
  json_block n 7 hash "0x02070101" [JNum 1] [json_header 1 9 "0x0109"].

Definition good : Json :=
  fixture "NoProof" "0x002a" "0x002a0000" "0x0207" 10 13 [block1; block2 2 "0x0207"].

(** The same fixture with a genesis encoding that is not the genesis
    block's. *)
Definition bad_genesis_rlp : Json :=
  fixture "NoProof" "0x002a" "0xdeadbeef" "0x0207" 10 13 [block1; block2 2 "0x0207"].

(** The same fixture with a wrong declared hash for block 2. *)
Definition bad_hash : Json :=
  fixture "NoProof" "0x002a" "0x002a0000" "0x0207" 10 13 [block1; block2 2 "0x0299"].

(** The same fixture with a block 2 that does not extend the chain (its
    number is 5): its encoding and hash are as declared, and the fork
    rejects it. *)
Definition bad_block : Json :=
  fixture "NoProof" "0x002a" "0x002a0000" "0x0507" 10 13
    [block1; json_block 5 7 "0x0507" "0x05070101" [JNum 1] [json_header 1 9 "0x0109"]].

(** Fixture objects without [postState]: one with nothing but its
    network, one that only lacks the post-state. *)
Definition only_network : Json := JObj [("network", JStr "Shanghai")].

Definition no_post_state_items : list (string * Json) :=
  [("network", JStr "Shanghai");
   ("genesisBlockHeader", json_header 0 42 "0x002a");
   ("genesisRLP", JStr "0x002a0000");
   ("pre", JNum 10);
   ("blocks", JArr [block1]);
   ("lastblockhash", JStr "0x0107");
   ("sealEngine", JStr "NoProof")].

Definition no_post_state : Json := JObj no_post_state_items.

(** A fixture without blocks, and the fixture of two blocks with an
    expected post-state that the blocks do not give. *)
Definition no_blocks : Json :=
  fixture "NoProof" "0x002a" "0x002a0000" "0x002a" 10 10 [].

Definition bad_post_state : Json :=
  fixture "NoProof" "0x002a" "0x002a0000" "0x0207" 10 99 [block1; block2 2 "0x0207"].

(** The fields of [good] after [network]. *)
Definition good_without_network : list (string * Json) :=
  match good with
  | JObj (_ :: rest) => rest
  | _ => []
  end.

(** A file system with one fixture file, in a directory whose walk finds
    [paths]. *)
Definition walked (paths : list string) (path : string) (content : Json)
  : FileSystem :=
  {| read_json := fun p => if String.eqb p path then inr content else inl (OSError p);
     walk_json := fun _ => paths |}.

(** The fixture file of the discovery examples. *)
Definition three_tests : Json :=
  JObj [("a", good); ("b", only_network);
        ("c", JObj [("network", JStr "Berlin")])].

Definition path : string :=
  "tests/fixtures/BlockchainTests/EIPTests/bc4895-withdrawals/incorrectWithdrawalsRoot.json".

Definition tc : TestCase := {| test_file := path; test_key := "t" |}.

Definition fs_of (content : Json) : FileSystem := one_file path (JObj [("t", content)]).

Definition no_data : @TestData.t types :=
  @TestData.Build_t types "" "" {| number := 0; nonce := 0 |} 0 [] [] [] 0 0 [] [] [] false.

(** The decoded test of a fixture that decodes. *)
Definition decoded (content : Json) : @TestData.t types :=
  match @Decoder.load_test types load (fs_of content) tc with
  | inr test_data => test_data
  | inl _ => no_data
  end.

End Toy.

(** * Properties *)

(** ** The monad [Run] *)

Module RunFacts.
Section RunFacts.
Context {Ev E : Type}.
Implicit Types (tr : list Ev).

Lemma bind_ret_l {A B} (a : A) (f : A -> Run.t Ev E B) :
  Run.bind (Run.ret a) f = f a.
Proof. unfold Run.bind, Run.ret. by destruct (f a). Qed.

Lemma bind_raise {A B} (e : E) (f : A -> Run.t Ev E B) :
  Run.bind (Run.raise e) f = Run.raise e.
Proof. reflexivity. Qed.

Lemma bind_ret_r {A} (m : Run.t Ev E A) : Run.bind m Run.ret = m.
Proof.
  destruct m as [tr [e|a]]; simpl; [done|]. by rewrite app_nil_r.
Qed.

Lemma bind_assoc {A B C} (m : Run.t Ev E A) (f : A -> Run.t Ev E B)
    (g : B -> Run.t Ev E C) :
  Run.bind (Run.bind m f) g = Run.bind m (fun a => Run.bind (f a) g).
Proof.
  destruct m as [tr [e|a]]; simpl; [done|].
  destruct (f a) as [tr' [e|b]]; simpl; [done|].
  destruct (g b) as [tr'' r]. by rewrite app_assoc.
Qed.

(** A bind whose first part returned. *)
Lemma bind_inr {A B} (m : Run.t Ev E A) (f : A -> Run.t Ev E B) tr a :
  m = (tr, inr a) ->
  Run.bind m f = (tr ++ Run.trace (f a), Run.outcome (f a)).
Proof. intros ->. simpl. by destruct (f a). Qed.

(** A bind whose first part raised. *)
Lemma bind_inl {A B} (m : Run.t Ev E A) (f : A -> Run.t Ev E B) tr e :
  m = (tr, inl e) -> Run.bind m f = (tr, inl e).
Proof. by intros ->. Qed.

(** The trace of a bind starts with the trace of its first part. *)
Lemma bind_trace_prefix {A B} (m : Run.t Ev E A) (f : A -> Run.t Ev E B) :
  Run.trace m `prefix_of` Run.trace (Run.bind m f).
Proof.
  destruct m as [tr [e|a]]; simpl; [done|].
  destruct (f a) as [tr' r]. simpl. by apply prefix_app_r.
Qed.

Lemma omap_cons_None {X} (proj : Ev -> option X) ev tr :
  proj ev = None -> omap proj (ev :: tr) = omap proj tr.
Proof. intros Hev. simpl. by rewrite Hev. Qed.

Lemma omap_cons_Some {X} (proj : Ev -> option X) ev tr x :
  proj ev = Some x -> omap proj (ev :: tr) = x :: omap proj tr.
Proof. intros Hev. simpl. by rewrite Hev. Qed.

Lemma surjective (A : Type) (m : Run.t Ev E A) :
  m = (Run.trace m, Run.outcome m).
Proof. by destruct m. Qed.
End RunFacts.
End RunFacts.

(** ** Discovery *)

Module DiscoveryFacts.
Import Discovery.

(** A test object without a [network] key contributes nothing to
    [found_keys], wherever it stands in the file. *)
Lemma found_keys_skip before key fields after network :
  Py.assoc "network" fields = None ->
  found_keys (before ++ (key, JObj fields) :: after) network
  = found_keys (before ++ after) network.
Proof.
  intros Hnone. induction before as [|[k t] before IH]; simpl.
  - by rewrite Hnone.
  - by rewrite IH.
Qed.

Lemma found_keys_none items network :
  Forall lacks_network items -> found_keys items network = inr [].
Proof.
  induction 1 as [|[k t] items (fields & Ht & Hnone) _ IH]; simpl in *; [done|].
  subst t. simpl. by rewrite Hnone.
Qed.

Section Facts.
Context `{Re}.

Lemma compile_all_inl patterns e :
  compile_all patterns = inl e ->
  exists q, q ∈ patterns /\ re_compile q = None /\ e = ReError q.
Proof.
  unfold compile_all. induction patterns as [|p ps IH]; simpl; [done|].
  destruct (re_compile p) eqn:Hp; simpl.
  - destruct (Result.traverse _ ps) as [e'|cs]; simpl; [|done].
    intros [= <-]. destruct IH as (q & Hq & Hnone & ->); [done|].
    exists q. split_and!; [by apply elem_of_cons; right|done|done].
  - intros [= <-]. exists p. split_and!; [by apply elem_of_cons; left|done|done].
Qed.

Lemma compile_all_inr patterns compiled :
  compile_all patterns = inr compiled ->
  Forall (fun p => is_Some (re_compile p)) patterns.
Proof.
  unfold compile_all. revert compiled.
  induction patterns as [|p ps IH]; simpl; intros compiled; [by constructor|].
  destruct (re_compile p) eqn:Hp; simpl; [|done].
  destruct (Result.traverse _ ps) as [e'|cs]; simpl; [done|].
  intros _. constructor; [by rewrite Hp|by eapply IH].
Qed.

(** [visit_file] on a file that [load_json_fixture] finds no test in. *)
Lemma visit_file_no_tests fs network all_slow all_big_memory all_ignore file :
  load_json_fixture fs file network = ([EvOpen file], inl NoTestsFound) ->
  visit_file fs network all_slow all_big_memory all_ignore file
  = ([EvOpen file], inr tt).
Proof. unfold visit_file. by intros ->. Qed.

Lemma load_json_fixture_read fs file network items :
  read_json fs file = inr (JObj items) ->
  load_json_fixture fs file network
  = match found_keys items network with
    | inl e => ([EvOpen file], inl e)
    | inr keys =>
        if Py.any keys
        then ([EvOpen file],
              inr (map (fun k => {| test_file := file; test_key := k |}) keys))
        else ([EvOpen file], inl NoTestsFound)
    end.
Proof.
  intros Hread. unfold load_json_fixture. rewrite Hread. simpl.
  destruct (found_keys items network) as [e|keys]; simpl; [done|].
  by destruct (Py.any keys).
Qed.

(** C9. When one of the three pattern lists holds a pattern that does not
    compile, [fetch_state_test_files] ends with [re.error] on such a
    pattern, and the run has walked no directory, opened no fixture file
    and yielded no test case. *)
Theorem invalid_pattern_fails_before_any_file fs test_dir network only_in
    slow_list big_memory_list ignore_list p :
  p ∈ slow_list ++ big_memory_list ++ ignore_list ->
  re_compile p = None ->
  exists q,
    q ∈ slow_list ++ big_memory_list ++ ignore_list
    /\ re_compile q = None
    /\ fetch_state_test_files fs test_dir network only_in
         slow_list big_memory_list ignore_list
       = ([], inl (ReError q)).
Proof.
  intros Hin Hnone. unfold fetch_state_test_files.
  destruct (compile_all slow_list) as [e|s] eqn:Hs.
  { apply compile_all_inl in Hs as (q & Hq & Hq' & ->).
    exists q. split_and!; [rewrite !elem_of_app; auto|done|done]. }
  destruct (compile_all big_memory_list) as [e|b] eqn:Hb.
  { apply compile_all_inl in Hb as (q & Hq & Hq' & ->).
    exists q. split_and!; [rewrite !elem_of_app; auto|done|done]. }
  destruct (compile_all ignore_list) as [e|i] eqn:Hi.
  { apply compile_all_inl in Hi as (q & Hq & Hq' & ->).
    exists q. split_and!; [rewrite !elem_of_app; auto|done|done]. }
  exfalso.
  apply compile_all_inr in Hs, Hb, Hi.
  rewrite !Forall_forall in Hs, Hb, Hi.
  assert (is_Some (re_compile p)) as [? Hsome]; [|congruence].
  rewrite !elem_of_app in Hin. destruct Hin as [?|[?|?]]; eauto.
Qed.

(** C10. A test object with no [network] key takes no part in discovery:
    the file with the object and the file without it give the same run of
    [load_json_fixture] and of [visit_file] (the same cases, the same
    outcome, no error of its own), whatever the network asked for. And a
    file whose test objects all lack the key is passed over as a file
    with no test at all is: it is opened, [NoTestsFound] is raised and
    caught, and nothing is yielded. *)
Theorem test_without_network_takes_no_part :
  (forall fs fs' file network before key fields after
          all_slow all_big_memory all_ignore,
     Py.assoc "network" fields = None ->
     read_json fs file = inr (JObj (before ++ (key, JObj fields) :: after)) ->
     read_json fs' file = inr (JObj (before ++ after)) ->
     load_json_fixture fs file network = load_json_fixture fs' file network
     /\ visit_file fs network all_slow all_big_memory all_ignore file
        = visit_file fs' network all_slow all_big_memory all_ignore file)
  /\ (forall fs fs' file network items all_slow all_big_memory all_ignore,
        Forall lacks_network items ->
        read_json fs file = inr (JObj items) ->
        read_json fs' file = inr (JObj []) ->
        load_json_fixture fs file network = ([EvOpen file], inl NoTestsFound)
        /\ visit_file fs network all_slow all_big_memory all_ignore file
           = ([EvOpen file], inr tt)
        /\ visit_file fs network all_slow all_big_memory all_ignore file
           = visit_file fs' network all_slow all_big_memory all_ignore file).
Proof.
  split.
  - intros * Hnone Hfs Hfs'.
    assert (load_json_fixture fs file network = load_json_fixture fs' file network)
      as Heq.
    { rewrite (load_json_fixture_read _ _ _ _ Hfs),
        (load_json_fixture_read _ _ _ _ Hfs').
      by rewrite found_keys_skip. }
    split; [done|]. unfold visit_file. by rewrite Heq.
  - intros * Hall Hfs Hfs'.
    assert (load_json_fixture fs file network = ([EvOpen file], inl NoTestsFound))
      as Hload.
    { rewrite (load_json_fixture_read _ _ _ _ Hfs).
      by rewrite found_keys_none. }
    assert (load_json_fixture fs' file network = ([EvOpen file], inl NoTestsFound))
      as Hload'.
    { by rewrite (load_json_fixture_read _ _ _ _ Hfs'). }
    split; [done|].
    by rewrite !visit_file_no_tests.
Qed.

(** C7. A fixture file whose one test for the network asked for has the
    empty string as its key: [any(found_keys)] is false on [[""]], so
    [NoTestsFound] is raised and the file is passed over, although the key
    takes part and no ignore pattern is given. *)
Theorem empty_key_is_not_yielded :
  let fs := Toy.one_file "t/x.json"
              (JObj [("", JObj [("network", JStr "Shanghai")])]) in
  found_keys [("", JObj [("network", JStr "Shanghai")])] "Shanghai" = inr [""]
  /\ fetch_state_test_files fs "t" "Shanghai" ["x.json"] [] [] []
     = ([EvOpen "t/x.json"], inr tt)
  /\ yielded (fetch_state_test_files fs "t" "Shanghai" ["x.json"] [] [] []) = [].
Proof. by vm_compute. Qed.

(** On test objects, [found_keys] finds the participating keys. *)
Lemma found_keys_participating items network :
  Forall (fun kv => is_object kv.2) items ->
  found_keys items network = inr (participating_keys items network).
Proof.
  unfold participating_keys.
  induction 1 as [|[key test] items [fields Htest] _ IH]; [done|].
  simpl in Htest. subst test. cbn [found_keys List.filter participates snd].
  cbn [Py.contains Py.getitem Result.bind].
  destruct (Py.assoc "network" fields) as [declared|] eqn:Hnet.
  - rewrite bool_decide_eq_true_2 by eauto. cbn [negb Result.bind].
    rewrite IH. cbn [Result.bind]. by destruct (Py.eq_str declared network).
  - rewrite bool_decide_eq_false_2 by (by intros [? ?]). cbn [negb]. done.
Qed.

Lemma for_each_classify all_slow all_big_memory all_ignore cases :
  Run.for_each (classify all_slow all_big_memory all_ignore) cases
  = (map EvYield (omap (tagged all_slow all_big_memory all_ignore) cases), inr tt).
Proof.
  induction cases as [|tc cases IH]; [done|].
  cbn [Run.for_each]. rewrite IH. unfold classify.
  destruct (any_search all_ignore (identifier tc)) eqn:Hignore.
  { rewrite RunFacts.bind_ret_l, RunFacts.omap_cons_None; [done|].
    unfold tagged. by rewrite Hignore. }
  erewrite RunFacts.omap_cons_Some by (unfold tagged; by rewrite Hignore).
  destruct (any_search all_slow (identifier tc)); [done|].
  by destruct (any_search all_big_memory (identifier tc)).
Qed.

(** One file, read as the specification describes it, is opened and
    yields what the specification has it contribute. *)
Lemma visit_file_regular fs network all_slow all_big_memory all_ignore file :
  regular_file fs network file ->
  visit_file fs network all_slow all_big_memory all_ignore file
  = (EvOpen file
       :: map EvYield (expected_params fs network all_slow all_big_memory
                         all_ignore file),
     inr tt).
Proof.
  intros (items & Hread & Hobj & Hkeys).
  unfold visit_file, expected_params.
  rewrite (load_json_fixture_read _ _ _ _ Hread), Hread.
  rewrite (found_keys_participating _ _ Hobj).
  destruct Hkeys as [Hnil|Hany].
  - rewrite Hnil. done.
  - rewrite Hany.
    rewrite (RunFacts.bind_inr _ _ [EvOpen file] _ eq_refl).
    rewrite for_each_classify. done.
Qed.

(** X1. The claim of C7 on the files it holds for. Given explicitly
    listed files ([only_in]), patterns that compile, and files read as
    the specification describes them (mappings of test names to test
    objects whose participating keys are not all the empty string),
    [fetch_state_test_files] returns having opened the files in the
    order of the list and yielded, file by file, the keys whose
    [network] is the one asked for, less those whose identifier an ignore
    pattern matches, each tagged by the first of slow and big-memory that
    matches. *)
Theorem fetch_yields_participating_keys fs test_dir network only_in
    slow_list big_memory_list ignore_list all_slow all_big_memory all_ignore :
  only_in <> [] ->
  compile_all slow_list = inr all_slow ->
  compile_all big_memory_list = inr all_big_memory ->
  compile_all ignore_list = inr all_ignore ->
  Forall (regular_file fs network) (map (Py.path_join test_dir) only_in) ->
  let g := fetch_state_test_files fs test_dir network only_in
             slow_list big_memory_list ignore_list in
  Run.outcome g = inr tt
  /\ opened g = map (Py.path_join test_dir) only_in
  /\ yielded g
     = flat_map (expected_params fs network all_slow all_big_memory all_ignore)
         (map (Py.path_join test_dir) only_in).
Proof.
  intros Honly Hs Hb Hi Hfiles g. subst g.
  unfold fetch_state_test_files, files_to_iterate.
  rewrite Hs, Hb, Hi. destruct only_in as [|f0 only_in']; [done|].
  change (Run.lift (inr all_slow)) with (@Run.ret FsEvent PyExn _ all_slow).
  change (Run.lift (inr all_big_memory))
    with (@Run.ret FsEvent PyExn _ all_big_memory).
  change (Run.lift (inr all_ignore)) with (@Run.ret FsEvent PyExn _ all_ignore).
  rewrite !RunFacts.bind_ret_l. cbn [length Nat.eqb negb].
  rewrite RunFacts.bind_ret_l.
  set (files := map (Py.path_join test_dir) (f0 :: only_in')) in *.
  clearbody files. unfold opened, yielded.
  induction Hfiles as [|file files Hfile _ IH]; [done|].
  cbn [Run.for_each]. rewrite (visit_file_regular _ _ _ _ _ _ Hfile).
  destruct IH as (Hout & Hopened & Hyielded).
  destruct (Run.for_each _ files) as [tr r]. cbn [Run.trace Run.outcome fst snd] in *.
  cbn [Run.bind]. cbn [Run.trace Run.outcome fst snd].
  split_and!; [done| |].
  - rewrite <- app_comm_cons, (RunFacts.omap_cons_Some _ _ _ file) by done.
    rewrite omap_app, Hopened. f_equal.
    induction (expected_params _ _ _ _ _ _); [done|]. done.
  - rewrite <- app_comm_cons, RunFacts.omap_cons_None by done.
    rewrite omap_app, Hyielded. cbn [flat_map]. f_equal.
    induction (expected_params _ _ _ _ _ _) as [|p ps IHp]; [done|].
    cbn [map]. rewrite (RunFacts.omap_cons_Some _ _ _ p) by done. by f_equal.
Qed.
End Facts.
End DiscoveryFacts.

(** ** Decoding *)

Module DecoderFacts.
Import Decoder.

Section Facts.
Context `{Load}.

Lemma json_to_blocks_loop_length json_blocks blocks block_header_hashes block_rlps :
  json_to_blocks_loop json_blocks = inr (blocks, block_header_hashes, block_rlps) ->
  length blocks = length json_blocks
  /\ length block_header_hashes = length json_blocks
  /\ length block_rlps = length json_blocks.
Proof.
  revert blocks block_header_hashes block_rlps.
  induction json_blocks as [|j js IH]; simpl; intros bs hs rs Hdec.
  - by injection Hdec as <- <- <-.
  - destruct (json_to_block j) as [e|[[b h] r]]; simpl in Hdec; [done|].
    destruct (json_to_blocks_loop js) as [e|[[bs' hs'] rs']]; simpl in Hdec; [done|].
    injection Hdec as <- <- <-.
    destruct (IH _ _ _ eq_refl) as (Hb & Hh & Hr). simpl.
    by rewrite Hb, Hh, Hr.
Qed.

Lemma json_to_blocks_length json_blocks blocks block_header_hashes block_rlps :
  json_to_blocks json_blocks = inr (blocks, block_header_hashes, block_rlps) ->
  length blocks = length block_header_hashes
  /\ length block_header_hashes = length block_rlps.
Proof.
  destruct json_blocks; simpl; try done.
  intros (Hb & Hh & Hr)%json_to_blocks_loop_length. by rewrite Hb, Hh, Hr.
Qed.

(** The three sequences of a decoded test are those [json_to_blocks]
    returned on the fixture's [blocks]. *)
Lemma load_test_blocks fs test_case test_data :
  load_test fs test_case = inr test_data ->
  exists json_blocks,
    json_to_blocks json_blocks
    = inr (TestData.blocks test_data,
           TestData.block_header_hashes test_data,
           TestData.block_rlps test_data).
Proof.
  unfold load_test. intros Hload.
  destruct (read_json fs _) as [?|data]; simpl in Hload; [done|].
  destruct (Py.getitem data _) as [?|json_data]; simpl in Hload; [done|].
  destruct (Py.getitem json_data "blocks") as [?|json_blocks]; simpl in Hload; [done|].
  exists json_blocks.
  destruct (json_to_blocks json_blocks) as [?|[[bs hs] rs]]; simpl in Hload; [done|].
  bind_inr Hload. by injection Hload as <-.
Qed.

(** C5, as the code has it. For a fixture object without [postState],
    [load_test] looks at [blocks] first: it raises [KeyError] when that
    field is missing too, the exception of [json_to_blocks] when the
    blocks do not decode, and [NoPostState] otherwise, whatever the
    fields read later ([genesisBlockHeader], [genesisRLP],
    [lastblockhash], [pre], [sealEngine]) hold. *)
Theorem missing_post_state_follows_blocks fs test_case data items :
  read_json fs (test_file test_case) = inr data ->
  Py.getitem data (test_key test_case) = inr (JObj items) ->
  Py.assoc "postState" items = None ->
  load_test fs test_case
  = match Py.assoc "blocks" items with
    | None => inl (KeyError "blocks")
    | Some json_blocks =>
        match json_to_blocks json_blocks with
        | inl e => inl e
        | inr _ => inl NoPostState
        end
    end.
Proof.
  intros Hread Hkey Hnone. unfold load_test. rewrite Hread. simpl.
  rewrite Hkey. simpl.
  destruct (Py.assoc "blocks" items) as [json_blocks|]; simpl; [|done].
  destruct (json_to_blocks json_blocks) as [e|[[bs hs] rs]]; simpl; [done|].
  unfold raw_post_state. simpl. by rewrite Hnone.
Qed.
End Facts.
End DecoderFacts.

(** ** The mock's call check *)

Module MockFacts.
Section Facts.
Context {A : Type} `{EqDecision A}.
Implicit Types (expected calls : list A).

Lemma starts_with_prefix expected calls :
  Mock.starts_with expected calls = true <-> exists post, calls = expected ++ post.
Proof.
  revert calls. induction expected as [|e expected IH]; intros [|c calls]; simpl.
  - split; [by exists []|done].
  - split; [by exists (c :: calls)|done].
  - split; [done|]. by intros [post ?].
  - rewrite andb_true_iff, bool_decide_eq_true, IH. split.
    + intros [-> [post ->]]. by exists post.
    + intros [post [= -> ->]]. split; [done|by exists post].
Qed.

(** [assert_has_calls] passes exactly when the expected calls are a run
    of consecutive recorded calls. *)
Lemma has_calls_run expected calls :
  Mock.has_calls expected calls = true
  <-> exists pre post, calls = pre ++ expected ++ post.
Proof.
  induction calls as [|c calls IH]; simpl.
  - rewrite orb_false_r, starts_with_prefix. split.
    + intros [post Hpost]. by exists [], post.
    + intros (pre & post & Hrun). symmetry in Hrun.
      apply app_eq_nil in Hrun as [-> Hrun].
      apply app_eq_nil in Hrun as [-> ->]. by exists [].
  - rewrite orb_true_iff, starts_with_prefix, IH. split.
    + intros [[post Hpost]|(pre & post & ->)].
      * by exists [], post.
      * by exists (c :: pre), post.
    + intros ([|c' pre] & post & Hrun); simpl in Hrun.
      * left. by exists post.
      * right. injection Hrun as -> ->. by exists pre, post.
Qed.
End Facts.
End MockFacts.

(** ** Replay *)

Module ReplayFacts.
Import Replay.

Section Facts.
Context `{Load}.
Implicit Types (test_data : TestData.t) (chain : BlockChain.t) (block : Block).
Implicit Types (validator : Header -> Run.t Event PyExn unit).

Lemma run_engine_quiet {X} (proj : Event -> option X) validator p :
  quiet proj validator ->
  omap proj (Run.trace (run_engine validator p)) = [].
Proof.
  intros Hq. induction p as [chain|e|h k IH]; simpl; [done|done|].
  specialize (IH (raised (Run.outcome (validator h)))).
  specialize (Hq h).
  destruct (validator h) as [tr r]; simpl in *.
  destruct (run_engine validator (k (raised r))) as [tr' r']; simpl in *.
  by rewrite omap_app, Hq, IH.
Qed.

(** One iteration of the loop of [add_blocks_to_chain], by cases. *)
Lemma add_blocks_from_cons validator test_data idx chain block rest :
  add_blocks_from validator test_data idx chain (block :: rest)
  = match TestData.block_header_hashes test_data !! idx with
    | None => ([], inl (DeclaredTooShort idx))
    | Some declared_hash =>
        if bool_decide (rlp_hash (header block) = declared_hash) then
          match TestData.block_rlps test_data !! idx with
          | None => ([], inl (DeclaredTooShort idx))
          | Some declared_rlp =>
              if bool_decide (rlp_encode block = declared_rlp) then
                match run_engine validator (state_transition chain block) with
                | (tr, inl cause) =>
                    (EvApply chain block :: tr, inl (StateTransitionFailed idx cause))
                | (tr, inr chain') =>
                    let r := add_blocks_from validator test_data (S idx) chain' rest in
                    (EvApply chain block :: tr ++ Run.trace r, Run.outcome r)
                end
              else ([], inl (BlockEncodingMismatch idx))
          end
        else ([], inl (BlockHashMismatch idx))
    end.
Proof.
  simpl. unfold index, assert.
  destruct (TestData.block_header_hashes test_data !! idx) as [d|]; simpl; [|done].
  destruct (bool_decide (rlp_hash (header block) = d)); simpl; [|done].
  destruct (TestData.block_rlps test_data !! idx) as [d'|]; simpl; [|done].
  destruct (bool_decide (rlp_encode block = d')); simpl; [|done].
  unfold Run.map_err.
  destruct (run_engine validator (state_transition chain block)) as [tr [e|c]];
    simpl; [done|].
  by destruct (add_blocks_from validator test_data (S idx) c rest).
Qed.

(** The loop calls [state_transition] on a prefix of the blocks, in
    order, each after both of its checks passed, and ends as [ended]
    says. *)
Lemma add_blocks_from_spec validator test_data blocks :
  quiet (fun ev => match ev with EvApply _ b => Some b | _ => None end) validator ->
  forall idx chain,
    let r := add_blocks_from validator test_data idx chain blocks in
    exists n,
      n <= length blocks
      /\ applied (Run.trace r) = take n blocks
      /\ (forall j block, j < n -> blocks !! j = Some block ->
            checked test_data (idx + j) block)
      /\ ended test_data idx blocks n (Run.outcome r).
Proof.
  intros Hq. induction blocks as [|block rest IH]; intros idx chain r.
  { exists 0. subst r. simpl. split_and!; [done|done|intros; lia|done]. }
  subst r. rewrite add_blocks_from_cons.
  destruct (TestData.block_header_hashes test_data !! idx) as [d|] eqn:Hd.
  2:{ exists 0. simpl. rewrite Nat.add_0_r.
      split_and!; [lia|done|intros; lia|done|lia|by left]. }
  case_bool_decide as Hhash.
  2:{ exists 0. simpl. rewrite Nat.add_0_r.
      split_and!; [lia|done|intros; lia|done|].
      exists block. split; [done|]. rewrite Hd. congruence. }
  subst d.
  destruct (TestData.block_rlps test_data !! idx) as [d'|] eqn:Hd'.
  2:{ exists 0. simpl. rewrite Nat.add_0_r.
      split_and!; [lia|done|intros; lia|done|lia|by right]. }
  case_bool_decide as Hrlp.
  2:{ exists 0. simpl. rewrite Nat.add_0_r.
      split_and!; [lia|done|intros; lia|done|].
      exists block. split; [done|]. rewrite Hd'. congruence. }
  subst d'.
  pose proof (run_engine_quiet _ validator (state_transition chain block) Hq) as He.
  destruct (run_engine validator (state_transition chain block)) as [tr [e|c]];
    simpl in He.
  - exists 1. simpl. unfold applied. simpl. rewrite He. rewrite take_0.
    split_and!; [lia|done| |lia].
    intros j b Hj Hb. assert (j = 0) as -> by lia. simpl in Hb.
    injection Hb as <-. rewrite Nat.add_0_r. by split.
  - destruct (IH (S idx) c) as (n & Hn & Happ & Hchk & Hend).
    exists (S n). simpl. split_and!.
    + lia.
    + unfold applied in *. simpl. rewrite omap_app, He. simpl. by rewrite Happ.
    + intros [|j] b Hj Hb; simpl in Hb.
      * injection Hb as <-. rewrite Nat.add_0_r. by split.
      * replace (idx + S j) with (S idx + j) by lia. apply Hchk; [lia|done].
    + unfold ended in *.
      destruct (Run.outcome (add_blocks_from validator test_data (S idx) c rest))
        as [[]|]; simpl; try done.
      * destruct Hend as (-> & b & Hb & Hne). split; [lia|]. by exists b.
      * destruct Hend as (-> & b & Hb & Hne). split; [lia|]. by exists b.
      * destruct Hend as (-> & Hlt & Hor). split_and!; [lia|lia|done].
      * lia.
      * lia.
Qed.

(** The loop on [xs ++ ys] is the loop on [xs] followed by the loop on
    [ys], started on the chain and at the index the first one reached. *)
Lemma add_blocks_from_app validator test_data xs ys :
  forall idx chain,
    add_blocks_from validator test_data idx chain (xs ++ ys)
    = Run.bind (add_blocks_from validator test_data idx chain xs)
        (fun c => add_blocks_from validator test_data (idx + length xs) c ys).
Proof.
  induction xs as [|block xs IH]; intros idx chain.
  { simpl. rewrite Nat.add_0_r.
    by destruct (add_blocks_from validator test_data idx chain ys). }
  rewrite <- app_comm_cons, !add_blocks_from_cons.
  destruct (TestData.block_header_hashes test_data !! idx) as [d|]; [|done].
  case_bool_decide; [|done].
  destruct (TestData.block_rlps test_data !! idx) as [d'|]; [|done].
  case_bool_decide; [|done].
  destruct (run_engine validator (state_transition chain block)) as [tr [e|c]];
    [done|].
  rewrite IH. simpl. replace (idx + S (length xs)) with (S (idx + length xs)) by lia.
  destruct (add_blocks_from validator test_data (S idx) c xs) as [trx [e|c']];
    simpl; [done|].
  destruct (add_blocks_from validator test_data (S (idx + length xs)) c' ys)
    as [try r].
  simpl. by rewrite app_assoc.
Qed.

Lemma add_blocks_from_quiet {X} (proj : Event -> option X) validator test_data blocks :
  quiet proj validator ->
  (forall chain block, proj (EvApply chain block) = None) ->
  forall idx chain,
    omap proj (Run.trace (add_blocks_from validator test_data idx chain blocks)) = [].
Proof.
  intros Hq Happly. induction blocks as [|block rest IH]; intros idx chain; [done|].
  rewrite add_blocks_from_cons.
  destruct (TestData.block_header_hashes test_data !! idx) as [d|]; [|done].
  case_bool_decide; [|done].
  destruct (TestData.block_rlps test_data !! idx) as [d'|]; [|done].
  case_bool_decide; [|done].
  pose proof (run_engine_quiet proj validator (state_transition chain block) Hq) as He.
  destruct (run_engine validator (state_transition chain block)) as [tr [e|c]];
    cbn [Run.trace fst] in *.
  - by rewrite RunFacts.omap_cons_None.
  - by rewrite RunFacts.omap_cons_None, ?omap_app, ?He, ?IH.
Qed.

Lemma real_validator_trace h : Run.trace (real_validator h) = [EvValidatePow h].
Proof. unfold real_validator. simpl. by destruct (validate_proof_of_work h). Qed.

Lemma quiet_real {X} (proj : Event -> option X) :
  (forall h, proj (EvValidatePow h) = None) -> quiet proj real_validator.
Proof. intros Hreal h. rewrite real_validator_trace. simpl. by rewrite Hreal. Qed.

Lemma quiet_mocked {X} (proj : Event -> option X) :
  (forall h, proj (EvMockedPow h) = None) -> quiet proj mocked_pow_validator.
Proof. intros Hmock h. simpl. by rewrite Hmock. Qed.

Lemma quiet_validator_of {X} (proj : Event -> option X) test_data :
  (forall h, proj (EvValidatePow h) = None) ->
  (forall h, proj (EvMockedPow h) = None) ->
  quiet proj (validator_of test_data).
Proof.
  intros Hreal Hmock. unfold validator_of.
  destruct (bypass test_data); [by apply quiet_mocked|by apply quiet_real].
Qed.

Lemma finish_cases test_data chain :
  finish test_data chain
  = match last (BlockChain.blocks chain) with
    | None => ([], inl NoLastBlock)
    | Some last_block =>
        if bool_decide (rlp_hash (header last_block)
                        = TestData.last_block_hash test_data) then
          if bool_decide (BlockChain.state chain
                          = TestData.expected_post_state test_data) then
            ([EvClose (BlockChain.state chain);
              EvClose (TestData.expected_post_state test_data)], inr tt)
          else ([], inl PostStateMismatch)
        else ([], inl FinalHashMismatch)
    end.
Proof.
  unfold finish, assert.
  destruct (last (BlockChain.blocks chain)); simpl; [|done].
  do 2 (case_bool_decide; simpl; [|done]). done.
Qed.

(** The replay, by cases on the genesis check, on how the loop ended and
    on the check of the recorded calls. *)
Lemma replay_cases test_data :
  replay test_data
  = if bool_decide (rlp_hash (TestData.genesis_header test_data)
                    = TestData.genesis_header_hash test_data) then
      match add_blocks_to_chain (validator_of test_data)
              (genesis_chain test_data) test_data with
      | (tr, inl f) => (tr, inl f)
      | (tr, inr chain) =>
          if bypass test_data
             && negb (Mock.has_calls (map header (TestData.blocks test_data))
                                     (mock_calls tr))
          then (tr, inl HookCallsMismatch)
          else (tr ++ Run.trace (finish test_data chain),
                Run.outcome (finish test_data chain))
      end
    else ([], inl GenesisHashMismatch).
Proof.
  unfold replay, validator_of, bypass, assert.
  fold (genesis_chain test_data).
  case_bool_decide; [|done]. rewrite RunFacts.bind_ret_l.
  destruct (negb (TestData.ignore_pow_validation test_data) || proof_of_stake);
    cbn [negb andb].
  - destruct (add_blocks_to_chain real_validator _ test_data) as [tr [f|chain]];
      [done|].
    by rewrite (RunFacts.bind_inr _ _ tr chain).
  - destruct (add_blocks_to_chain mocked_pow_validator _ test_data)
      as [tr [f|chain]]; [done|].
    cbn [Run.listen]. rewrite RunFacts.bind_assoc.
    rewrite (RunFacts.bind_inr _ _ tr (tr, chain)); [|done].
    destruct (Mock.has_calls _ _); cbn [negb].
    + rewrite RunFacts.bind_assoc, !RunFacts.bind_ret_l.
      by rewrite (RunFacts.surjective _ (finish test_data chain)) at 1 2.
    + cbn. by rewrite app_nil_r.
Qed.

Lemma finish_quiet {X} (proj : Event -> option X) test_data chain :
  (forall s, proj (EvClose s) = None) ->
  omap proj (Run.trace (finish test_data chain)) = [].
Proof.
  intros Hclose. rewrite finish_cases.
  destruct (last _); [|done]. do 2 (case_bool_decide; [|done]).
  simpl. by rewrite !Hclose.
Qed.

(** A replay calls [state_transition] on a prefix of the blocks of the
    test, in order, each block after both of its checks passed. *)
Lemma replay_spec test_data :
  exists n,
    n <= length (TestData.blocks test_data)
    /\ applied (Run.trace (replay test_data)) = take n (TestData.blocks test_data)
    /\ (forall j block, j < n -> TestData.blocks test_data !! j = Some block ->
          checked test_data j block)
    /\ replay_ended test_data n (Run.outcome (replay test_data)).
Proof.
  rewrite replay_cases. case_bool_decide.
  2:{ exists 0. simpl. split_and!; [lia|done|intros; lia|done]. }
  unfold add_blocks_to_chain.
  destruct (add_blocks_from_spec (validator_of test_data) test_data
              (TestData.blocks test_data)
              (quiet_validator_of _ test_data (fun _ => eq_refl) (fun _ => eq_refl))
              0 (genesis_chain test_data))
    as (n & Hn & Happ & Hchk & Hend).
  exists n.
  destruct (add_blocks_from _ _ _ _ _) as [tr [f|chain]]; simpl in *.
  - split_and!; [done|done|done|].
    destruct f; try done.
    + destruct Hend as (-> & b & Hb & Hne). split; [done|]. by exists b.
    + destruct Hend as (-> & b & Hb & Hne). split; [done|]. by exists b.
  - subst n. destruct (bypass test_data && _); simpl.
    + split_and!; [done|done|done|done].
    + split_and!; [done| |done|].
      * unfold applied in *. rewrite omap_app, Happ.
        rewrite (finish_quiet _ test_data chain (fun _ => eq_refl)).
        by rewrite app_nil_r.
      * rewrite finish_cases. destruct (last _); [|done].
        by do 2 (case_bool_decide; [|done]).
Qed.

(** The events of a replay that [proj] keeps, when the validator in
    force, [state_transition] and [close_state] leave none. *)
Lemma replay_quiet {X} (proj : Event -> option X) test_data :
  quiet proj (validator_of test_data) ->
  (forall chain block, proj (EvApply chain block) = None) ->
  (forall s, proj (EvClose s) = None) ->
  omap proj (Run.trace (replay test_data)) = [].
Proof.
  intros Hq Happly Hclose. rewrite replay_cases. case_bool_decide; [|done].
  pose proof (add_blocks_from_quiet proj _ test_data (TestData.blocks test_data)
                Hq Happly 0 (genesis_chain test_data)) as Hloop.
  unfold add_blocks_to_chain.
  destruct (add_blocks_from _ _ _ _ _) as [tr [f|chain]]; cbn [Run.trace fst] in *;
    [done|].
  destruct (bypass test_data && _); cbn [Run.trace fst]; [done|].
  by rewrite omap_app, Hloop, finish_quiet.
Qed.

(** The loop never ends with a failure of a later place. *)
Lemma add_blocks_not_hook_calls validator test_data chain :
  quiet (fun ev => match ev with EvApply _ b => Some b | _ => None end) validator ->
  Run.outcome (add_blocks_to_chain validator chain test_data) <> inl HookCallsMismatch.
Proof.
  intros Hq Hout.
  destruct (add_blocks_from_spec validator test_data (TestData.blocks test_data)
              Hq 0 chain) as (n & _ & _ & _ & Hend).
  unfold add_blocks_to_chain in Hout. by rewrite Hout in Hend.
Qed.

(** What a replay closed: nothing when it failed, the chain's state and
    the expected post-state, which are equal, when it returned. *)
Lemma replay_closed test_data :
  match Run.outcome (replay test_data) with
  | inl _ => closed (Run.trace (replay test_data)) = []
  | inr _ =>
      closed (Run.trace (replay test_data))
      = [TestData.expected_post_state test_data;
         TestData.expected_post_state test_data]
  end.
Proof.
  rewrite replay_cases. case_bool_decide; [|done].
  pose proof (add_blocks_from_quiet
                (fun ev => match ev with EvClose s => Some s | _ => None end)
                _ test_data (TestData.blocks test_data)
                (quiet_validator_of _ test_data (fun _ => eq_refl) (fun _ => eq_refl))
                (fun _ _ => eq_refl) 0 (genesis_chain test_data)) as Hloop.
  unfold add_blocks_to_chain.
  destruct (add_blocks_from _ _ _ _ _) as [tr [f|chain]]; cbn [Run.trace fst] in *;
    [done|].
  destruct (bypass test_data && _); cbn [Run.trace Run.outcome fst snd]; [done|].
  unfold closed in *. rewrite omap_app, Hloop, finish_cases.
  destruct (last _); [|done].
  case_bool_decide; [|done]. case_bool_decide as Hstate; [|done].
  simpl. by rewrite Hstate.
Qed.

(** C1, as the code has it. The validator put in place of the fork's own
    records the header it is called with and returns. When the fixture
    asks for the bypass and the fork is not a proof-of-stake fork, the
    fork's own validator is not run, a replay that returns has recorded
    the headers of the blocks of the test, in block order, as a run of
    consecutive calls (other recorded calls may stand before and after
    the run), and a replay that fails the check of the calls has recorded
    no such run. Otherwise nothing is put in place of the validator: no
    call is recorded. *)
Theorem pow_validator_is_mocked_and_its_calls_checked test_data :
  (forall h, mocked_pow_validator h = ([EvMockedPow h], inr tt))
  /\ (TestData.ignore_pow_validation test_data = true ->
      proof_of_stake = false ->
      validate_calls (Run.trace (replay test_data)) = []
      /\ (Run.outcome (replay test_data) = inr tt ->
          exists pre post,
            mock_calls (Run.trace (replay test_data))
            = pre ++ map header (TestData.blocks test_data) ++ post)
      /\ (Run.outcome (replay test_data) = inl HookCallsMismatch ->
          ~ exists pre post,
              mock_calls (Run.trace (replay test_data))
              = pre ++ map header (TestData.blocks test_data) ++ post))
  /\ (TestData.ignore_pow_validation test_data = false \/ proof_of_stake = true ->
      mock_calls (Run.trace (replay test_data)) = []).
Proof.
  split; [done|]. split.
  - intros Hignore Hpos.
    assert (bypass test_data = true) as Hbypass.
    { unfold bypass. by rewrite Hignore, Hpos. }
    assert (validator_of test_data = mocked_pow_validator) as Hv.
    { unfold validator_of. by rewrite Hbypass. }
    split.
    { apply replay_quiet; [|done|done]. rewrite Hv. by apply quiet_mocked. }
    pose proof (add_blocks_not_hook_calls (validator_of test_data) test_data
                  (genesis_chain test_data)
                  (quiet_validator_of _ test_data (fun _ => eq_refl) (fun _ => eq_refl)))
      as Hloop.
    rewrite replay_cases. case_bool_decide; [|by split].
    destruct (add_blocks_to_chain _ _ _) as [tr [f|chain]];
      cbn [Run.trace Run.outcome fst snd] in *.
    { split; [done|]. intros [= ->]. done. }
    rewrite Hbypass. cbn [andb].
    destruct (Mock.has_calls _ _) eqn:Hcalls; cbn [negb Run.trace Run.outcome fst snd].
    + apply MockFacts.has_calls_run in Hcalls as (pre & post & Hrun).
      assert (mock_calls (tr ++ Run.trace (finish test_data chain)) = mock_calls tr)
        as ->.
      { unfold mock_calls. rewrite omap_app, finish_quiet; [|done].
        by rewrite app_nil_r. }
      split; [by exists pre, post|].
      rewrite finish_cases. destruct (last _); [|done].
      by do 2 (case_bool_decide; [|done]).
    + split; [done|]. intros _ Hrun.
      apply MockFacts.has_calls_run in Hrun. congruence.
  - intros Hmode.
    apply replay_quiet; [|done|done].
    assert (bypass test_data = false) as Hbypass.
    { unfold bypass. destruct Hmode as [->| ->]; [done|].
      by rewrite orb_true_r. }
    unfold validator_of. rewrite Hbypass. by apply quiet_real.
Qed.

(** A call of the validator under the mock: the call is recorded and the
    fork goes on as after a validation that returned. *)
Lemma run_engine_mocked_call h k :
  run_engine mocked_pow_validator (CallPow h k)
  = (EvMockedPow h :: Run.trace (run_engine mocked_pow_validator (k None)),
     Run.outcome (run_engine mocked_pow_validator (k None))).
Proof. simpl. by destruct (run_engine mocked_pow_validator (k None)). Qed.

(** Under the mock, a fork that validates the header of each block once
    has the mock record the headers of the blocks [state_transition] was
    entered for, and nothing else. *)
Lemma mock_calls_once test_data blocks :
  validates_header_once ->
  forall idx chain,
    let r := add_blocks_from mocked_pow_validator test_data idx chain blocks in
    mock_calls (Run.trace r) = map header (applied (Run.trace r)).
Proof.
  intros Honce. induction blocks as [|block rest IH]; intros idx chain r; [done|].
  subst r. rewrite add_blocks_from_cons.
  destruct (TestData.block_header_hashes test_data !! idx) as [d|]; [|done].
  case_bool_decide; [|done].
  destruct (TestData.block_rlps test_data !! idx) as [d'|]; [|done].
  case_bool_decide; [|done].
  destruct (Honce chain block) as (k & -> & Hk). specialize (Hk None).
  rewrite run_engine_mocked_call.
  destruct (k None) as [c|e|]; [| |done]; cbn [run_engine Run.ret Run.raise
    Run.trace Run.outcome fst snd app].
  - specialize (IH (S idx) c). cbn zeta in IH.
    destruct (add_blocks_from mocked_pow_validator test_data (S idx) c rest)
      as [tr r]. cbn [Run.trace fst] in *.
    unfold mock_calls, applied in *.
    rewrite (RunFacts.omap_cons_None _ (EvApply chain block)) by done.
    rewrite (RunFacts.omap_cons_Some _ (EvMockedPow (header block)) _ (header block))
      by done.
    rewrite (RunFacts.omap_cons_Some _ (EvApply chain block) _ block) by done.
    rewrite (RunFacts.omap_cons_None _ (EvMockedPow (header block))) by done.
    cbn [map]. by rewrite IH.
  - done.
Qed.

(** X2. The claim of C1 on the forks it holds for. When the fork's
    [state_transition] validates the seal of the block's header and of
    nothing else, the test asks for the bypass and the fork is not a
    proof-of-stake fork, a replay that returns has recorded exactly one
    call of the mock per block of the test, in block order, each on that
    block's header. *)
Theorem bypassed_replay_records_one_call_per_block test_data :
  validates_header_once ->
  TestData.ignore_pow_validation test_data = true ->
  proof_of_stake = false ->
  Run.outcome (replay test_data) = inr tt ->
  mock_calls (Run.trace (replay test_data))
  = map header (TestData.blocks test_data).
Proof.
  intros Honce Hignore Hpos Hout.
  assert (bypass test_data = true) as Hbypass.
  { unfold bypass. by rewrite Hignore, Hpos. }
  destruct (replay_spec test_data) as (n & _ & Happ & _ & Hend).
  rewrite Hout in Hend. simpl in Hend. subst n. rewrite firstn_all in Happ.
  rewrite <- Happ. clear Happ.
  rewrite replay_cases in *. case_bool_decide; [|done].
  unfold add_blocks_to_chain, validator_of in *. rewrite Hbypass in *.
  pose proof (mock_calls_once test_data (TestData.blocks test_data) Honce 0
                (genesis_chain test_data)) as Hcalls.
  cbn zeta in Hcalls.
  destruct (add_blocks_from mocked_pow_validator test_data 0 _ _)
    as [tr [f|chain]]; cbn [Run.trace Run.outcome fst snd] in *; [done|].
  destruct (true && _); cbn [Run.trace Run.outcome fst snd] in *; [done|].
  unfold mock_calls, applied in *.
  rewrite !omap_app, !finish_quiet, !app_nil_r by done. done.
Qed.

(** C2, as the code has it. The two state stores are closed only by a
    replay that returns: it closes the chain's state and then the expected
    post-state, which the last assertion found equal. A replay that
    fails, at [load_test], at an assertion or in [state_transition],
    closes nothing before the exception propagates. *)
Theorem state_stores_are_closed_only_on_success fs test_case :
  let r := run_blockchain_st_test fs test_case in
  match Run.outcome r with
  | inl _ => closed (Run.trace r) = []
  | inr _ =>
      exists test_data,
        Decoder.load_test fs test_case = inr test_data
        /\ closed (Run.trace r)
           = [TestData.expected_post_state test_data;
              TestData.expected_post_state test_data]
  end.
Proof.
  unfold run_blockchain_st_test.
  destruct (Decoder.load_test fs test_case) as [e|test_data]; [done|].
  cbn [Result.map_err]. change (Run.lift (inr test_data)) with (@Run.ret Event ReplayFailure _ test_data).
  rewrite RunFacts.bind_ret_l. cbn zeta.
  pose proof (replay_closed test_data) as Hclosed.
  destruct (Run.outcome (replay test_data)); [done|]. by exists test_data.
Qed.

(** C3. In a replay, [state_transition] is entered for the blocks of the
    test in order, and for block [j] only after its header hash and its
    encoding were found equal to the declared ones. So when the declared
    hash (or encoding) of block [i] is not that of the block, the blocks
    [state_transition] was entered for are among the first [i]: it is
    entered neither for block [i] nor for a later one, and the replay
    fails. A replay that fails as [BlockHashMismatch i] or
    [BlockEncodingMismatch i] entered [state_transition] for the first
    [i] blocks and no other. *)
Theorem checks_precede_state_transition test_data :
  let r := replay test_data in
  (forall j block,
     applied (Run.trace r) !! j = Some block ->
     TestData.blocks test_data !! j = Some block /\ checked test_data j block)
  /\ (forall i block,
        TestData.blocks test_data !! i = Some block ->
        ~ checked test_data i block ->
        (exists n, n <= i
           /\ applied (Run.trace r) = take n (TestData.blocks test_data))
        /\ Run.outcome r <> inr tt)
  /\ (forall i,
        Run.outcome r = inl (BlockHashMismatch i)
        \/ Run.outcome r = inl (BlockEncodingMismatch i) ->
        applied (Run.trace r) = take i (TestData.blocks test_data)).
Proof.
  intros r. subst r.
  destruct (replay_spec test_data) as (n & Hn & Happ & Hchk & Hend).
  split_and!.
  - intros j block. rewrite Happ. intros [Hj Hlt]%lookup_take_Some.
    split; [done|]. by apply Hchk.
  - intros i block Hblock Hbad.
    assert (n <= i) as Hle.
    { destruct (decide (n <= i)) as [|Hgt]; [done|].
      exfalso. apply Hbad, Hchk; [lia|done]. }
    split; [by exists n|].
    intros Hout. rewrite Hout in Hend. simpl in Hend.
    apply lookup_lt_Some in Hblock. lia.
  - intros i [Hout|Hout]; rewrite Hout in Hend; simpl in Hend;
      destruct Hend as [-> _]; done.
Qed.

Lemma add_blocks_from_set_genesis_block_rlp validator test_data encoding blocks :
  forall idx chain,
    add_blocks_from validator (set_genesis_block_rlp test_data encoding) idx chain blocks
    = add_blocks_from validator test_data idx chain blocks.
Proof.
  induction blocks as [|block rest IH]; intros idx chain; [done|].
  rewrite !add_blocks_from_cons. cbn [set_genesis_block_rlp
    TestData.block_header_hashes TestData.block_rlps].
  destruct (TestData.block_header_hashes test_data !! idx) as [d|]; [|done].
  case_bool_decide; [|done].
  destruct (TestData.block_rlps test_data !! idx) as [d'|]; [|done].
  case_bool_decide; [|done].
  destruct (run_engine validator (state_transition chain block)) as [tr [e|c]];
    [done|].
  by rewrite IH.
Qed.

(** C6, as the code has it. The declared genesis encoding is compared
    with nothing, for any header: a replay of a decoded test and a replay
    of the same test with any other declared genesis encoding leave the
    same trace and end the same way. *)
Theorem genesis_encoding_is_not_checked test_data encoding :
  replay (set_genesis_block_rlp test_data encoding) = replay test_data.
Proof.
  rewrite !replay_cases. unfold add_blocks_to_chain.
  change (validator_of (set_genesis_block_rlp test_data encoding))
    with (validator_of test_data).
  change (genesis_chain (set_genesis_block_rlp test_data encoding))
    with (genesis_chain test_data).
  change (bypass (set_genesis_block_rlp test_data encoding))
    with (bypass test_data).
  cbn [set_genesis_block_rlp TestData.genesis_header TestData.genesis_header_hash
       TestData.blocks].
  rewrite add_blocks_from_set_genesis_block_rlp.
  reflexivity.
Qed.

(** C8. The three sequences of a decoded test have the same length, so
    that every block index has a declared header hash and a declared
    encoding, and no replay of the test fails for want of one. *)
Theorem decoded_sequences_have_equal_length fs test_case test_data :
  Decoder.load_test fs test_case = inr test_data ->
  length (TestData.blocks test_data) = length (TestData.block_header_hashes test_data)
  /\ length (TestData.block_header_hashes test_data)
     = length (TestData.block_rlps test_data)
  /\ (forall idx, idx < length (TestData.blocks test_data) ->
        is_Some (TestData.block_header_hashes test_data !! idx)
        /\ is_Some (TestData.block_rlps test_data !! idx))
  /\ (forall idx,
        Run.outcome (run_blockchain_st_test fs test_case)
        <> inl (DeclaredTooShort idx)).
Proof.
  intros Hload.
  destruct (DecoderFacts.load_test_blocks _ _ _ Hload) as [json_blocks Hblocks].
  apply DecoderFacts.json_to_blocks_length in Hblocks as [Hh Hr].
  assert (forall idx, idx < length (TestData.blocks test_data) ->
            is_Some (TestData.block_header_hashes test_data !! idx)
            /\ is_Some (TestData.block_rlps test_data !! idx)) as Hsome.
  { intros idx Hidx. split; apply lookup_lt_is_Some; lia. }
  split_and!; [done|done|done|].
  intros idx. unfold run_blockchain_st_test. rewrite Hload.
  cbn [Result.map_err].
  change (Run.lift (inr test_data)) with (@Run.ret Event ReplayFailure _ test_data).
  rewrite RunFacts.bind_ret_l. intros Hout.
  destruct (replay_spec test_data) as (n & _ & _ & _ & Hend).
  rewrite Hout in Hend. simpl in Hend. destruct Hend as (-> & Hlt & Hnone).
  destruct (Hsome n Hlt) as [[? Hs1] [? Hs2]]. destruct Hnone; congruence.
Qed.
End Facts.
End ReplayFacts.

(** ** A block the fork rejects *)

Module ShanghaiFacts.
Import Replay ReplayFacts Shanghai.

Section Facts.
Context `{Load}.
Implicit Types (test_data : TestData.t) (chain : BlockChain.t) (block : Block).

(** The loop on a test whose first [i] blocks are added and whose block
    [i] passes its two checks and is rejected. *)
Lemma add_blocks_rejected validator test_data chain i block tr chain_i cause :
  TestData.blocks test_data !! i = Some block ->
  add_blocks_upto validator test_data chain i = (tr, inr chain_i) ->
  checked test_data i block ->
  Run.outcome (run_engine validator (state_transition chain_i block)) = inl cause ->
  add_blocks_to_chain validator chain test_data
  = (tr ++ EvApply chain_i block
        :: Run.trace (run_engine validator (state_transition chain_i block)),
     inl (StateTransitionFailed i cause)).
Proof.
  intros Hblock Hupto [Hhash Hrlp] Hcause.
  unfold add_blocks_to_chain, add_blocks_upto in *.
  rewrite <- (take_drop_middle _ _ _ Hblock) at 1.
  rewrite add_blocks_from_app, (RunFacts.bind_inr _ _ _ _ Hupto).
  rewrite length_take_le by (apply lookup_lt_Some in Hblock; lia).
  rewrite add_blocks_from_cons. cbn [Nat.add].
  rewrite Hhash, Hrlp, !bool_decide_eq_true_2 by done.
  destruct (run_engine validator (state_transition chain_i block)) as [tr' r].
  simpl in Hcause. by subst r.
Qed.

Lemma pytest_raises_inl target e :
  pytest_raises target (inl e) = if isinstance e target then inr tt else inl e.
Proof. done. Qed.

(** C4. Take a decoded test whose genesis hash is as declared, whose
    first [i] blocks are added to the chain, giving [chain_i], and whose
    block [i] passes its two checks and is rejected by [state_transition]
    with [cause]. Then the replay fails as [StateTransitionFailed i
    cause], the exception that propagates is [cause] itself,
    [state_transition] was entered for the blocks up to [i] and for no
    later one, its last call was on [chain_i], the chain that the blocks
    before [i] gave, and nothing was closed. The scenario
    [test_general_state_tests_4895] passes on a file of its lists of
    invalid tests exactly when [cause] is of the class named for the list
    ([RLPDecodingError], [InvalidBlock]), and does not pass on another
    file. *)
Theorem rejected_block_fails_the_replay fs test_case test_data i block tr chain_i cause :
  Decoder.load_test fs test_case = inr test_data ->
  rlp_hash (TestData.genesis_header test_data) = TestData.genesis_header_hash test_data ->
  TestData.blocks test_data !! i = Some block ->
  add_blocks_upto (validator_of test_data) test_data (genesis_chain test_data) i
  = (tr, inr chain_i) ->
  checked test_data i block ->
  Run.outcome (run_engine (validator_of test_data) (state_transition chain_i block))
  = inl cause ->
  let r := run_blockchain_st_test fs test_case in
  Run.outcome r = inl (StateTransitionFailed i cause)
  /\ exception (StateTransitionFailed i cause) = cause
  /\ applied (Run.trace r) = take (S i) (TestData.blocks test_data)
  /\ last (applications (Run.trace r)) = Some (chain_i, block)
  /\ closed (Run.trace r) = []
  /\ test_general_state_tests_4895 fs test_case
     = (if is_in_list test_case invalid_rlp_tests then
          if isinstance cause "RLPDecodingError" then Passed
          else match cause with NoPostState => XFailed | _ => Errored cause end
        else if is_in_list test_case invalid_bounds_tests
                || is_in_list test_case invalid_block_tests then
          if isinstance cause "InvalidBlock" then Passed
          else match cause with NoPostState => XFailed | _ => Errored cause end
        else match cause with NoPostState => XFailed | _ => Errored cause end).
Proof.
  intros Hload Hgenesis Hblock Hupto Hchecked Hcause r.
  assert (r = replay test_data) as Hr.
  { subst r. unfold run_blockchain_st_test. rewrite Hload. cbn [Result.map_err].
    change (Run.lift (inr test_data)) with (@Run.ret Event ReplayFailure _ test_data).
    by rewrite RunFacts.bind_ret_l. }
  pose proof (add_blocks_rejected _ _ _ _ _ _ _ _ Hblock Hupto Hchecked Hcause)
    as Hloop.
  assert (replay test_data
          = (tr ++ EvApply chain_i block
                :: Run.trace (run_engine (validator_of test_data)
                                (state_transition chain_i block)),
             inl (StateTransitionFailed i cause))) as Hreplay.
  { rewrite replay_cases, bool_decide_eq_true_2 by done. by rewrite Hloop. }
  assert (Run.outcome r = inl (StateTransitionFailed i cause)) as Hout.
  { by rewrite Hr, Hreplay. }
  split_and!; [done|done| | | |].
  - rewrite Hr.
    destruct (replay_spec test_data) as (n & _ & Happ & _ & Hend).
    rewrite <- Hr, Hout in Hend. simpl in Hend. by subst n.
  - rewrite Hr, Hreplay. cbn [Run.trace fst]. unfold applications.
    rewrite omap_app, (RunFacts.omap_cons_Some _ _ _ (chain_i, block)) by done.
    rewrite run_engine_quiet
      by (by apply quiet_validator_of).
    apply last_snoc.
  - pose proof (replay_closed test_data) as Hclosed.
    rewrite <- Hr, Hout in Hclosed. done.
  - unfold test_general_state_tests_4895, run_shanghai_blockchain_st_tests.
    fold r. rewrite Hout. cbn [Result.map_err exception].
    rewrite !pytest_raises_inl.
    destruct (is_in_list test_case invalid_rlp_tests).
    { by destruct (isinstance cause "RLPDecodingError"). }
    destruct (is_in_list test_case invalid_bounds_tests); cbn [orb].
    { by destruct (isinstance cause "InvalidBlock"). }
    destruct (is_in_list test_case invalid_block_tests); [|done].
    by destruct (isinstance cause "InvalidBlock").
Qed.
End Facts.
End ShanghaiFacts.

(** ** More on discovery *)

Module DiscoveryMore.
Import Discovery.

Section ForEach.
Context {Ev E A : Type}.
Implicit Types (body : A -> Run.t Ev E unit).

(** A loop over [xs ++ ys] is the loop over [xs] followed by the loop
    over [ys]. *)
Lemma for_each_app body xs ys :
  Run.for_each body (xs ++ ys)
  = Run.bind (Run.for_each body xs) (fun _ => Run.for_each body ys).
Proof.
  induction xs as [|x xs IH]; simpl.
  - by destruct (Run.for_each body ys).
  - rewrite IH. by rewrite RunFacts.bind_assoc.
Qed.

(** An event of a loop is an event of one of its iterations. *)
Lemma for_each_event body xs ev :
  ev ∈ Run.trace (Run.for_each body xs) ->
  exists x, x ∈ xs /\ ev ∈ Run.trace (body x).
Proof.
  induction xs as [|x xs IH]; simpl; [by intros ?%elem_of_nil|].
  destruct (body x) as [tr [e|[]]] eqn:Hx; simpl.
  - intros Hev. exists x. rewrite Hx. split; [by left|done].
  - destruct (Run.for_each body xs) as [tr' r]. simpl in *.
    intros [Hev|Hev]%elem_of_app.
    + exists x. rewrite Hx. split; [by left|done].
    + destruct (IH Hev) as (y & Hy & Hev'). exists y. split; [by right|done].
Qed.
End ForEach.

(** [found_keys] returns only keys of tests that declare the network
    asked for. *)
Lemma found_keys_sound items network keys key :
  found_keys items network = inr keys ->
  key ∈ keys ->
  exists test declared,
    (key, test) ∈ items
    /\ Py.getitem test "network" = inr declared
    /\ Py.eq_str declared network = true.
Proof.
  revert keys. induction items as [|[k test] items IH]; simpl; intros keys Hfound Hkey.
  { injection Hfound as <-. by apply elem_of_nil in Hkey. }
  destruct (Py.contains "network" test) as [e|[]]; simpl in Hfound; [done| |].
  - destruct (Py.getitem test "network") as [e|declared] eqn:Hget;
      simpl in Hfound; [done|].
    destruct (found_keys items network) as [e|found]; simpl in Hfound; [done|].
    destruct (Py.eq_str declared network) eqn:Heq; injection Hfound as <-.
    + apply elem_of_cons in Hkey as [->|Hkey].
      * exists test, declared. split_and!; [by left|done|done].
      * destruct (IH _ eq_refl Hkey) as (t & d & Hin & Hg & Hd).
        exists t, d. split_and!; [by right|done|done].
    + destruct (IH _ eq_refl Hkey) as (t & d & Hin & Hg & Hd).
      exists t, d. split_and!; [by right|done|done].
  - destruct (IH _ Hfound Hkey) as (t & d & Hin & Hg & Hd).
    exists t, d. split_and!; [by right|done|done].
Qed.

(** [load_json_fixture] opens its file and does nothing else to the
    outside world. *)
Lemma load_json_fixture_trace fs file network :
  Run.trace (load_json_fixture fs file network) = [EvOpen file].
Proof.
  unfold load_json_fixture. simpl.
  destruct (read_json fs file) as [e|data]; simpl; [done|].
  destruct (Py.items data) as [e|items]; simpl; [done|].
  destruct (found_keys items network) as [e|keys]; simpl; [done|].
  by destruct (Py.any keys).
Qed.

Lemma load_json_fixture_inr fs file network cases :
  Run.outcome (load_json_fixture fs file network) = inr cases ->
  exists items keys,
    read_json fs file = inr (JObj items)
    /\ found_keys items network = inr keys
    /\ cases = map (fun k => {| test_file := file; test_key := k |}) keys.
Proof.
  unfold load_json_fixture. simpl.
  destruct (read_json fs file) as [e|data]; simpl; [done|].
  destruct data; simpl; try done.
  destruct (found_keys items network) as [e|keys] eqn:Hfound; simpl; [done|].
  destruct (Py.any keys); simpl; [|done].
  intros [= <-]. by exists items, keys.
Qed.

Section Facts.
Context `{Re}.

(** One iteration over the files, by how [load_json_fixture] ends. *)
Lemma visit_file_cases fs network all_slow all_big_memory all_ignore file :
  visit_file fs network all_slow all_big_memory all_ignore file
  = match Run.outcome (load_json_fixture fs file network) with
    | inr cases =>
        (EvOpen file
           :: map EvYield (omap (tagged all_slow all_big_memory all_ignore) cases),
         inr tt)
    | inl NoTestsFound => ([EvOpen file], inr tt)
    | inl e => ([EvOpen file], inl e)
    end.
Proof.
  unfold visit_file.
  pose proof (load_json_fixture_trace fs file network) as Htrace.
  destruct (load_json_fixture fs file network) as [tr [e|cases]];
    simpl in Htrace; subst tr; cbn [Run.outcome snd].
  - cbn [Run.bind Run.catch]. by destruct e.
  - rewrite (RunFacts.bind_inr _ _ [EvOpen file] cases eq_refl).
    by rewrite DiscoveryFacts.for_each_classify.
Qed.

Lemma fetch_compiled fs test_dir network only_in slow_list big_memory_list
    ignore_list all_slow all_big_memory all_ignore :
  compile_all slow_list = inr all_slow ->
  compile_all big_memory_list = inr all_big_memory ->
  compile_all ignore_list = inr all_ignore ->
  fetch_state_test_files fs test_dir network only_in
    slow_list big_memory_list ignore_list
  = Run.bind (files_to_iterate fs test_dir only_in all_ignore)
      (Run.for_each (visit_file fs network all_slow all_big_memory all_ignore)).
Proof.
  intros Hs Hb Hi. unfold fetch_state_test_files. rewrite Hs, Hb, Hi.
  change (Run.lift (inr all_slow)) with (@Run.ret FsEvent PyExn _ all_slow).
  change (Run.lift (inr all_big_memory))
    with (@Run.ret FsEvent PyExn _ all_big_memory).
  change (Run.lift (inr all_ignore)) with (@Run.ret FsEvent PyExn _ all_ignore).
  by rewrite !RunFacts.bind_ret_l.
Qed.

Lemma files_to_iterate_only_in fs test_dir only_in all_ignore :
  only_in <> [] ->
  files_to_iterate fs test_dir only_in all_ignore
  = ([], inr (map (Py.path_join test_dir) only_in)).
Proof. by destruct only_in. Qed.

Lemma files_to_iterate_walk fs test_dir all_ignore :
  files_to_iterate fs test_dir [] all_ignore
  = ([EvWalk test_dir],
     inr (filter (fun full_path => any_search all_ignore full_path = false)
                 (walk_json fs test_dir))).
Proof. done. Qed.

(** The whole trace of the loop over regular files. *)
Lemma for_each_visit_regular fs network all_slow all_big_memory all_ignore files :
  Forall (regular_file fs network) files ->
  Run.for_each (visit_file fs network all_slow all_big_memory all_ignore) files
  = (flat_map
       (fun file =>
          EvOpen file
            :: map EvYield (expected_params fs network all_slow all_big_memory
                              all_ignore file))
       files,
     inr tt).
Proof.
  induction 1 as [|file files Hfile _ IH]; [done|].
  cbn [Run.for_each flat_map].
  rewrite (DiscoveryFacts.visit_file_regular _ _ _ _ _ _ Hfile), IH. done.
Qed.
(** A case that one iteration yields was found in the file of the
    iteration, declares the network asked for, and carries the tag of its
    identifier. *)
Lemma visit_file_yield fs network all_slow all_big_memory all_ignore file p :
  EvYield p ∈ Run.trace
                (visit_file fs network all_slow all_big_memory all_ignore file) ->
  exists items test declared,
    test_file (case p) = file
    /\ read_json fs file = inr (JObj items)
    /\ (test_key (case p), test) ∈ items
    /\ Py.getitem test "network" = inr declared
    /\ Py.eq_str declared network = true
    /\ tagged all_slow all_big_memory all_ignore (case p) = Some p.
Proof.
  rewrite visit_file_cases.
  destruct (Run.outcome (load_json_fixture fs file network)) as [e|cases] eqn:Hload.
  { destruct e; cbn [Run.trace fst];
      intros [[=]|[]%elem_of_nil]%elem_of_cons. }
  cbn [Run.trace fst]. intros [[=]|Hin]%elem_of_cons.
  apply list_elem_of_fmap in Hin as (q & [= <-] & Hq).
  apply list_elem_of_omap in Hq as (tc & Htc & Htag).
  apply load_json_fixture_inr in Hload as (items & keys & Hread & Hfound & ->).
  apply list_elem_of_fmap in Htc as (key & -> & Hkey).
  destruct (found_keys_sound _ _ _ _ Hfound Hkey) as (test & declared & Hin & Hget & Heq).
  assert (case p = {| test_file := file; test_key := key |}) as Hcase.
  { unfold tagged in Htag. destruct (any_search all_ignore _); [done|].
    by injection Htag as <-. }
  exists items, test, declared. rewrite Hcase. cbn [test_file test_key].
  split_and!; done.
Qed.

(** X3. Whatever the files hold, a case that [fetch_state_test_files]
    yields is a test of a file of the list it iterates over, found in that
    file under its key, whose [network] is the string asked for; no ignore
    pattern matches its identifier, and its mark is [slow] when a slow
    pattern matches, else [bigmem] when a big-memory pattern matches, else
    none. *)
Theorem yielded_cases_take_part fs test_dir network only_in
    slow_list big_memory_list ignore_list p :
  p ∈ yielded (fetch_state_test_files fs test_dir network only_in
                 slow_list big_memory_list ignore_list) ->
  exists all_slow all_big_memory all_ignore items test declared,
    compile_all slow_list = inr all_slow
    /\ compile_all big_memory_list = inr all_big_memory
    /\ compile_all ignore_list = inr all_ignore
    /\ read_json fs (test_file (case p)) = inr (JObj items)
    /\ (test_key (case p), test) ∈ items
    /\ Py.getitem test "network" = inr declared
    /\ Py.eq_str declared network = true
    /\ tagged all_slow all_big_memory all_ignore (case p) = Some p
    /\ match only_in with
       | [] => test_file (case p) ∈ walk_json fs test_dir
               /\ any_search all_ignore (test_file (case p)) = false
       | _ :: _ => test_file (case p) ∈ map (Py.path_join test_dir) only_in
       end.
Proof.
  unfold yielded. intros (ev & Hev & Hproj)%list_elem_of_omap.
  destruct ev as [| |q]; try done. injection Hproj as ->.
  destruct (compile_all slow_list) as [e|all_slow] eqn:Hs.
  { unfold fetch_state_test_files in Hev. rewrite Hs in Hev.
    by apply elem_of_nil in Hev. }
  destruct (compile_all big_memory_list) as [e|all_big_memory] eqn:Hb.
  { unfold fetch_state_test_files in Hev. rewrite Hs, Hb in Hev.
    by apply elem_of_nil in Hev. }
  destruct (compile_all ignore_list) as [e|all_ignore] eqn:Hi.
  { unfold fetch_state_test_files in Hev. rewrite Hs, Hb, Hi in Hev.
    by apply elem_of_nil in Hev. }
  rewrite (fetch_compiled _ _ _ _ _ _ _ _ _ _ Hs Hb Hi) in Hev.
  exists all_slow, all_big_memory, all_ignore.
  destruct only_in as [|x only_in'].
  - rewrite files_to_iterate_walk in Hev.
    rewrite (RunFacts.bind_inr _ _ [EvWalk test_dir] _ eq_refl) in Hev.
    cbn [Run.trace fst] in Hev.
    apply elem_of_app in Hev as [[[=]|[]%elem_of_nil]%elem_of_cons|Hev].
    apply for_each_event in Hev as (file & Hfile & Hev).
    apply visit_file_yield in Hev
      as (items & test & declared & Hcase & Hread & Hin & Hget & Heq & Htag).
    exists items, test, declared. rewrite Hcase.
    apply list_elem_of_filter in Hfile as [Hnot Hwalk].
    split_and!; done.
  - rewrite files_to_iterate_only_in in Hev by done.
    rewrite (RunFacts.bind_inr _ _ [] _ eq_refl) in Hev.
    cbn [Run.trace fst app] in Hev.
    apply for_each_event in Hev as (file & Hfile & Hev).
    apply visit_file_yield in Hev
      as (items & test & declared & Hcase & Hread & Hin & Hget & Heq & Htag).
    exists items, test, declared. rewrite Hcase. split_and!; done.
Qed.

Lemma opened_flat_map fs network all_slow all_big_memory all_ignore files :
  omap (fun ev => match ev with EvOpen f => Some f | _ => None end)
    (flat_map
       (fun file =>
          EvOpen file
            :: map EvYield (expected_params fs network all_slow all_big_memory
                              all_ignore file))
       files)
  = files.
Proof.
  induction files as [|file files IH]; [done|].
  cbn [flat_map]. rewrite <- app_comm_cons.
  rewrite (RunFacts.omap_cons_Some _ _ _ file) by done.
  rewrite omap_app, IH. f_equal.
  induction (expected_params _ _ _ _ _ _) as [|q qs IHq]; [done|].
  cbn [map]. by rewrite RunFacts.omap_cons_None.
Qed.

Lemma yielded_flat_map fs network all_slow all_big_memory all_ignore files :
  omap (fun ev => match ev with EvYield q => Some q | _ => None end)
    (flat_map
       (fun file =>
          EvOpen file
            :: map EvYield (expected_params fs network all_slow all_big_memory
                              all_ignore file))
       files)
  = flat_map (expected_params fs network all_slow all_big_memory all_ignore) files.
Proof.
  induction files as [|file files IH]; [done|].
  cbn [flat_map]. rewrite <- app_comm_cons.
  rewrite RunFacts.omap_cons_None, omap_app, IH by done. f_equal.
  induction (expected_params _ _ _ _ _ _) as [|q qs IHq]; [done|].
  cbn [map]. rewrite (RunFacts.omap_cons_Some _ _ _ q) by done. by f_equal.
Qed.

(** X4. Without an explicit list of files, [fetch_state_test_files]
    walks [test_dir] first, and once; it opens, in the order of the walk,
    the JSON files found whose path no ignore pattern matches, and no
    other file; when these files are regular it returns having yielded,
    file by file, what each of them contributes. *)
Theorem walk_opens_the_files_not_ignored fs test_dir network
    slow_list big_memory_list ignore_list all_slow all_big_memory all_ignore :
  compile_all slow_list = inr all_slow ->
  compile_all big_memory_list = inr all_big_memory ->
  compile_all ignore_list = inr all_ignore ->
  let files := filter (fun full_path => any_search all_ignore full_path = false)
                      (walk_json fs test_dir) in
  Forall (regular_file fs network) files ->
  let g := fetch_state_test_files fs test_dir network []
             slow_list big_memory_list ignore_list in
  g = (EvWalk test_dir
         :: flat_map
              (fun file =>
                 EvOpen file
                   :: map EvYield (expected_params fs network all_slow
                                     all_big_memory all_ignore file))
              files,
       inr tt)
  /\ opened g = files
  /\ forall file, any_search all_ignore file = true -> file ∉ opened g.
Proof.
  intros Hs Hb Hi files Hfiles g.
  assert (g = (EvWalk test_dir
                 :: flat_map
                      (fun file =>
                         EvOpen file
                           :: map EvYield (expected_params fs network all_slow
                                             all_big_memory all_ignore file))
                      files,
               inr tt)) as Hg.
  { subst g. rewrite (fetch_compiled _ _ _ _ _ _ _ _ _ _ Hs Hb Hi).
    rewrite files_to_iterate_walk.
    rewrite (RunFacts.bind_inr _ _ [EvWalk test_dir] _ eq_refl).
    fold files. by rewrite (for_each_visit_regular _ _ _ _ _ _ Hfiles). }
  assert (opened g = files) as Hopened.
  { rewrite Hg. unfold opened. cbn [Run.trace fst].
    rewrite RunFacts.omap_cons_None by done. apply opened_flat_map. }
  split_and!; [done|done|].
  intros file Hignored. rewrite Hopened. subst files.
  intros [Hnot _]%list_elem_of_filter. congruence.
Qed.

(** X5. A file of the explicit list that [load_json_fixture] fails on
    with an exception other than [NoTestsFound] (the file cannot be read,
    is no mapping, holds a test that is no object) ends the whole
    discovery with that exception: the cases of the files before it were
    yielded, the file was opened, and no later file is opened. *)
Theorem bad_file_ends_discovery fs test_dir network before bad after
    slow_list big_memory_list ignore_list all_slow all_big_memory all_ignore e :
  compile_all slow_list = inr all_slow ->
  compile_all big_memory_list = inr all_big_memory ->
  compile_all ignore_list = inr all_ignore ->
  Forall (regular_file fs network) (map (Py.path_join test_dir) before) ->
  Run.outcome (load_json_fixture fs (Py.path_join test_dir bad) network) = inl e ->
  e <> NoTestsFound ->
  let g := fetch_state_test_files fs test_dir network (before ++ bad :: after)
             slow_list big_memory_list ignore_list in
  Run.outcome g = inl e
  /\ opened g = map (Py.path_join test_dir) (before ++ [bad])
  /\ yielded g
     = flat_map (expected_params fs network all_slow all_big_memory all_ignore)
         (map (Py.path_join test_dir) before).
Proof.
  intros Hs Hb Hi Hbefore Hbad Hne g.
  assert (g = (flat_map
                 (fun file =>
                    EvOpen file
                      :: map EvYield (expected_params fs network all_slow
                                        all_big_memory all_ignore file))
                 (map (Py.path_join test_dir) before)
               ++ [EvOpen (Py.path_join test_dir bad)],
               inl e)) as Hg.
  { subst g. rewrite (fetch_compiled _ _ _ _ _ _ _ _ _ _ Hs Hb Hi).
    rewrite files_to_iterate_only_in by (by destruct before).
    rewrite (RunFacts.bind_inr _ _ [] _ eq_refl). cbn [app].
    rewrite map_app, for_each_app.
    rewrite (RunFacts.bind_inr _ _ _ tt (for_each_visit_regular _ _ _ _ _ _ Hbefore)).
    cbn [map Run.for_each]. rewrite visit_file_cases, Hbad.
    rewrite <- RunFacts.surjective.
    destruct e; done. }
  rewrite Hg. unfold opened, yielded. cbn [Run.trace Run.outcome fst snd].
  split_and!; [done| |].
  - rewrite omap_app, opened_flat_map, map_app. done.
  - rewrite omap_app, yielded_flat_map. cbn [omap list_omap]. by rewrite app_nil_r.
Qed.

(** X6. A value of a fixture file that is no test object: when
    ["network" in test] is false (a string without [network] in it, a
    list without the element ["network"], as for an object without the
    key) the value is passed over and changes nothing; otherwise (null, a
    number, a boolean, a string with [network] in it, a list with the
    element) the loop over the tests ends with [TypeError] once it
    reaches the value. *)
Theorem test_values_that_are_no_object :
  (forall before key test after network,
     Py.contains "network" test = inr false ->
     found_keys (before ++ (key, test) :: after) network
     = found_keys (before ++ after) network)
  /\ (forall before key test after network found,
        found_keys before network = inr found ->
        (forall fields, test <> JObj fields) ->
        Py.contains "network" test <> inr false ->
        found_keys (before ++ (key, test) :: after) network = inl TypeError).
Proof.
  split.
  - intros before key test after network Hin.
    induction before as [|[k t] before IH]; simpl.
    + by rewrite Hin.
    + by rewrite IH.
  - intros before key test after network found Hbefore Hobj Hin.
    revert found Hbefore.
    induction before as [|[k t] before IH]; simpl; intros found Hbefore.
    + destruct test as [| | |s|xs|fields]; simpl in *; try done.
      * destruct (Py.str_contains "network" s); [done|congruence].
      * destruct (existsb _ xs); [done|congruence].
      * by destruct (Hobj fields).
    + destruct (Py.contains "network" t) as [e|[]]; simpl in *; [done| |].
      * destruct (Py.getitem t "network") as [e|declared]; simpl in *; [done|].
        destruct (found_keys before network) as [e|found']; simpl in *; [done|].
        by rewrite (IH _ eq_refl).
      * by apply (IH found).
Qed.
End Facts.
End DiscoveryMore.

(** ** More on decoding *)

Module DecoderMore.
Import Decoder Scenarios.

(** A key that is not [name] does not change what [name] is looked up
    to. *)
Lemma getitem_frame before key value after name :
  key <> name ->
  Py.getitem (JObj (before ++ (key, value) :: after)) name
  = Py.getitem (JObj (before ++ after)) name.
Proof.
  intros Hne. simpl.
  assert (Py.assoc name (before ++ (key, value) :: after)
          = Py.assoc name (before ++ after)) as ->; [|done].
  induction before as [|[k v] before IH]; simpl.
  - destruct (String.eqb_spec key name); [done|done].
  - by rewrite IH.
Qed.

Section Facts.
Context `{Load}.

(** Where each field of a decoded test comes from. *)
Lemma load_test_inv fs test_case test_data :
  load_test fs test_case = inr test_data ->
  exists data json_data json_blocks raw_post genesis_json chain_id_json hash_json
         genesis_rlp_json last_json pre_json seal,
    read_json fs (test_file test_case) = inr data
    /\ Py.getitem data (test_key test_case) = inr json_data
    /\ Py.getitem json_data "blocks" = inr json_blocks
    /\ json_to_blocks json_blocks
       = inr (TestData.blocks test_data,
              TestData.block_header_hashes test_data,
              TestData.block_rlps test_data)
    /\ Py.getitem json_data "postState" = inr raw_post
    /\ json_to_state raw_post = inr (TestData.expected_post_state test_data)
    /\ Py.getitem json_data "genesisBlockHeader" = inr genesis_json
    /\ json_to_header genesis_json = inr (TestData.genesis_header test_data)
    /\ Py.get genesis_json "chainId" (JNum 1) = inr chain_id_json
    /\ U64 chain_id_json = inr (TestData.chain_id test_data)
    /\ Py.getitem genesis_json "hash" = inr hash_json
    /\ hex_to_bytes hash_json = inr (TestData.genesis_header_hash test_data)
    /\ Py.getitem json_data "genesisRLP" = inr genesis_rlp_json
    /\ hex_to_bytes genesis_rlp_json = inr (TestData.genesis_block_rlp test_data)
    /\ Py.getitem json_data "lastblockhash" = inr last_json
    /\ hex_to_bytes last_json = inr (TestData.last_block_hash test_data)
    /\ Py.getitem json_data "pre" = inr pre_json
    /\ json_to_state pre_json = inr (TestData.pre_state test_data)
    /\ Py.getitem json_data "sealEngine" = inr seal
    /\ TestData.ignore_pow_validation test_data = Py.eq_str seal "NoProof"
    /\ TestData.test_file test_data = test_file test_case
    /\ TestData.test_key test_data = test_key test_case.
Proof.
  unfold load_test. intros Hload.
  destruct (read_json fs _) as [?|data] eqn:Hdata; simpl in Hload; [done|].
  destruct (Py.getitem data _) as [?|json_data] eqn:Hjson; simpl in Hload; [done|].
  destruct (Py.getitem json_data "blocks") as [?|json_blocks] eqn:Hblocks;
    simpl in Hload; [done|].
  destruct (json_to_blocks json_blocks) as [?|[[bs hs] rs]] eqn:Hdec;
    simpl in Hload; [done|].
  destruct (raw_post_state json_data) as [?|raw_post] eqn:Hraw;
    simpl in Hload; [done|].
  assert (Py.getitem json_data "postState" = inr raw_post) as Hpost.
  { unfold raw_post_state in Hraw.
    destruct (Py.getitem json_data "postState") as [[]|?]; congruence. }
  destruct (json_to_state raw_post) as [?|post] eqn:Hpost'; simpl in Hload; [done|].
  destruct (Py.getitem json_data "genesisBlockHeader") as [?|genesis_json] eqn:Hg;
    simpl in Hload; [done|].
  destruct (json_to_header genesis_json) as [?|gh] eqn:Hgh; simpl in Hload; [done|].
  destruct (Py.get genesis_json "chainId" (JNum 1)) as [?|cj] eqn:Hcj;
    simpl in Hload; [done|].
  destruct (U64 cj) as [?|cid] eqn:Hcid; simpl in Hload; [done|].
  destruct (Py.getitem genesis_json "hash") as [?|hj] eqn:Hhj;
    simpl in Hload; [done|].
  destruct (hex_to_bytes hj) as [?|ghh] eqn:Hghh; simpl in Hload; [done|].
  destruct (Py.getitem json_data "genesisRLP") as [?|rj] eqn:Hrj;
    simpl in Hload; [done|].
  destruct (hex_to_bytes rj) as [?|grlp] eqn:Hgrlp; simpl in Hload; [done|].
  destruct (Py.getitem json_data "lastblockhash") as [?|lj] eqn:Hlj;
    simpl in Hload; [done|].
  destruct (hex_to_bytes lj) as [?|lbh] eqn:Hlbh; simpl in Hload; [done|].
  destruct (Py.getitem json_data "pre") as [?|pj] eqn:Hpj; simpl in Hload; [done|].
  destruct (json_to_state pj) as [?|pre] eqn:Hpre; simpl in Hload; [done|].
  destruct (Py.getitem json_data "sealEngine") as [?|seal] eqn:Hseal;
    simpl in Hload; [done|].
  injection Hload as <-.
  exists data, json_data, json_blocks, raw_post, genesis_json, cj, hj, rj, lj, pj, seal.
  cbn [TestData.blocks TestData.block_header_hashes TestData.block_rlps
       TestData.expected_post_state TestData.genesis_header TestData.chain_id
       TestData.genesis_header_hash TestData.genesis_block_rlp
       TestData.last_block_hash TestData.pre_state
       TestData.ignore_pow_validation TestData.test_file TestData.test_key].
  split_and!; done.
Qed.

(** X7. In a decoded test the file and the key are those of the test
    case, [ignore_pow_validation] holds exactly when [sealEngine] is the
    string [NoProof] (any other string or value gives false), and the
    chain id is [U64] of the genesis header's [chainId], or of 1 when the
    header has no such key. *)
Theorem flag_and_chain_id_of_a_decoded_test fs test_case test_data :
  load_test fs test_case = inr test_data ->
  exists data json_data genesis_items seal,
    read_json fs (test_file test_case) = inr data
    /\ Py.getitem data (test_key test_case) = inr json_data
    /\ TestData.test_file test_data = test_file test_case
    /\ TestData.test_key test_data = test_key test_case
    /\ Py.getitem json_data "sealEngine" = inr seal
    /\ (TestData.ignore_pow_validation test_data = true <-> seal = JStr "NoProof")
    /\ Py.getitem json_data "genesisBlockHeader" = inr (JObj genesis_items)
    /\ U64 (default (JNum 1) (Py.assoc "chainId" genesis_items))
       = inr (TestData.chain_id test_data).
Proof.
  intros (data & json_data & jb & rp & gj & cj & hj & rj & lj & pj & seal
          & Hdata & Hjson & _ & _ & _ & _ & Hg & _ & Hcj & Hcid & _ & _ & _ & _
          & _ & _ & _ & _ & Hseal & Hflag & Hfile & Hkey)%load_test_inv.
  destruct gj as [| | | | |genesis_items]; try done.
  injection Hcj as <-.
  exists data, json_data, genesis_items, seal.
  split_and!; try done.
  rewrite Hflag. destruct seal; simpl; try (split; done).
  rewrite String.eqb_eq. split; [by intros ->|by intros [= ->]].
Qed.

(** X8. [load_test] returns no test for a fixture object in which one
    of the fields it subscripts ([blocks], [postState],
    [genesisBlockHeader], [genesisRLP], [lastblockhash], [pre],
    [sealEngine]) cannot be looked up: it raises. *)
Theorem missing_required_field_fails fs test_case data json_data name :
  read_json fs (test_file test_case) = inr data ->
  Py.getitem data (test_key test_case) = inr json_data ->
  name ∈ required_fields ->
  (forall value, Py.getitem json_data name <> inr value) ->
  exists e, load_test fs test_case = inl e.
Proof.
  intros Hdata Hjson Hname Hmissing.
  destruct (load_test fs test_case) as [e|test_data] eqn:Hload; [by exists e|].
  exfalso.
  apply load_test_inv in Hload
    as (data' & json_data' & jb & rp & gj & cj & hj & rj & lj & pj & seal
        & Hdata' & Hjson' & Hb & _ & Hp & _ & Hg & _ & _ & _ & _ & _ & Hr & _
        & Hl & _ & Hpre & _ & Hseal & _).
  rewrite Hdata in Hdata'. injection Hdata' as <-.
  rewrite Hjson in Hjson'. injection Hjson' as <-.
  unfold required_fields in Hname.
  repeat (apply elem_of_cons in Hname as [->|Hname]; [by eapply Hmissing|]).
  by apply elem_of_nil in Hname.
Qed.

(** X9. A field of the fixture object that [load_test] does not
    subscript ([network], [info], ...) changes nothing: the fixture with
    the field and the fixture without it decode to the same test, or
    fail with the same exception. *)
Theorem unread_field_changes_nothing fs fs' test_case data data'
    before key value after :
  key ∉ required_fields ->
  read_json fs (test_file test_case) = inr data ->
  Py.getitem data (test_key test_case)
  = inr (JObj (before ++ (key, value) :: after)) ->
  read_json fs' (test_file test_case) = inr data' ->
  Py.getitem data' (test_key test_case) = inr (JObj (before ++ after)) ->
  load_test fs test_case = load_test fs' test_case.
Proof.
  intros Hkey Hdata Hjson Hdata' Hjson'.
  assert (forall name, name ∈ required_fields ->
            Py.getitem (JObj (before ++ (key, value) :: after)) name
            = Py.getitem (JObj (before ++ after)) name) as Hframe.
  { intros name Hname. apply getitem_frame. by intros ->. }
  unfold load_test, raw_post_state.
  rewrite Hdata, Hdata'. cbn [Result.bind]. rewrite Hjson, Hjson'. cbn [Result.bind].
  rewrite !Hframe by (unfold required_fields; rewrite !elem_of_cons; tauto).
  reflexivity.
Qed.
End Facts.
End DecoderMore.

(** ** More on replay *)

Module ReplayMore.
Import Replay ReplayFacts Scenarios.

Section Facts.
Context `{Load}.
Implicit Types (test_data : TestData.t) (chain : BlockChain.t) (block : Block).

Lemma applied_quiet test_data :
  quiet (fun ev => match ev with EvApply _ b => Some b | _ => None end)
        (validator_of test_data).
Proof. by apply quiet_validator_of. Qed.

(** X10. A replay that returns has found the genesis hash as declared,
    has entered [state_transition] for every block of the test, in order
    and once each, every block after its header hash and its encoding
    were found as declared, and has ended on a chain whose last block has
    the declared last hash and whose state is the expected post-state. *)
Theorem returned_replay_checked_everything test_data :
  Run.outcome (replay test_data) = inr tt ->
  rlp_hash (TestData.genesis_header test_data)
  = TestData.genesis_header_hash test_data
  /\ applied (Run.trace (replay test_data)) = TestData.blocks test_data
  /\ (forall j block,
        TestData.blocks test_data !! j = Some block -> checked test_data j block)
  /\ exists chain last_block,
       Run.outcome (add_blocks_to_chain (validator_of test_data)
                      (genesis_chain test_data) test_data) = inr chain
       /\ last (BlockChain.blocks chain) = Some last_block
       /\ rlp_hash (header last_block) = TestData.last_block_hash test_data
       /\ BlockChain.state chain = TestData.expected_post_state test_data.
Proof.
  intros Hout.
  destruct (replay_spec test_data) as (n & _ & Happ & Hchk & Hend).
  rewrite Hout in Hend. simpl in Hend. subst n. rewrite firstn_all in Happ.
  rewrite replay_cases in Hout.
  case_bool_decide as Hgenesis; [|done].
  split_and!; [done|done| |].
  { intros j block Hblock. apply Hchk; [|done]. by eapply lookup_lt_Some. }
  destruct (add_blocks_to_chain _ _ _) as [tr [f|chain]]; [done|].
  destruct (bypass test_data && _); [done|].
  cbn [Run.outcome snd] in Hout. rewrite finish_cases in Hout.
  destruct (last (BlockChain.blocks chain)) as [last_block|] eqn:Hlast; [|done].
  case_bool_decide; [|done]. case_bool_decide; [|done].
  exists chain, last_block. by split_and!.
Qed.

(** X11. A test without blocks: the replay calls neither
    [state_transition] nor a validator, and it returns exactly when the
    hash of the genesis header is both the declared genesis hash and the
    declared last block hash and the pre-state is the expected
    post-state. *)
Theorem replay_without_blocks test_data :
  TestData.blocks test_data = [] ->
  applied (Run.trace (replay test_data)) = []
  /\ mock_calls (Run.trace (replay test_data)) = []
  /\ validate_calls (Run.trace (replay test_data)) = []
  /\ (Run.outcome (replay test_data) = inr tt
      <-> rlp_hash (TestData.genesis_header test_data)
          = TestData.genesis_header_hash test_data
          /\ rlp_hash (TestData.genesis_header test_data)
             = TestData.last_block_hash test_data
          /\ TestData.pre_state test_data
             = TestData.expected_post_state test_data).
Proof.
  intros Hblocks. rewrite replay_cases. unfold add_blocks_to_chain.
  rewrite Hblocks. cbn [add_blocks_from Run.ret map mock_calls omap list_omap
    Mock.has_calls Mock.starts_with orb negb].
  rewrite andb_false_r, finish_cases.
  cbn [genesis_chain BlockChain.blocks BlockChain.state last genesis_block header app].
  case_bool_decide as Hg; [|split_and!; try done; split; [done|by intros [? _]]].
  case_bool_decide as Hl; [|split_and!; try done; split; [done|by intros (_ & ? & _)]].
  case_bool_decide as Hs; [|split_and!; try done; split; [done|by intros (_ & _ & ?)]].
  split_and!; done.
Qed.

(** X12. A replay that fails after the loop over the blocks (at the
    check of the mock's calls, at the last block hash, at the post-state)
    had found the genesis hash as declared and had entered
    [state_transition] for every block of the test, each after both of its
    checks; and the check of the mock's calls fails only when the test
    asks for the bypass on a fork that is not a proof-of-stake fork. *)
Theorem late_failures_follow_every_block test_data f :
  Run.outcome (replay test_data) = inl f ->
  f ∈ [HookCallsMismatch; NoLastBlock; FinalHashMismatch; PostStateMismatch] ->
  rlp_hash (TestData.genesis_header test_data)
  = TestData.genesis_header_hash test_data
  /\ applied (Run.trace (replay test_data)) = TestData.blocks test_data
  /\ (forall j block,
        TestData.blocks test_data !! j = Some block -> checked test_data j block)
  /\ (f = HookCallsMismatch ->
      TestData.ignore_pow_validation test_data = true /\ proof_of_stake = false).
Proof.
  intros Hout Hf.
  destruct (replay_spec test_data) as (n & _ & Happ & Hchk & Hend).
  rewrite Hout in Hend.
  assert (n = length (TestData.blocks test_data)) as ->.
  { repeat (apply elem_of_cons in Hf as [->|Hf]; [done|]).
    by apply elem_of_nil in Hf. }
  rewrite firstn_all in Happ.
  split_and!; [|done| |].
  - rewrite replay_cases in Hout. case_bool_decide; [done|].
    injection Hout as <-.
    repeat (apply elem_of_cons in Hf as [[=]|Hf]). by apply elem_of_nil in Hf.
  - intros j block Hblock. apply Hchk; [|done]. by eapply lookup_lt_Some.
  - intros ->. rewrite replay_cases in Hout. case_bool_decide; [|done].
    pose proof (add_blocks_not_hook_calls (validator_of test_data) test_data
                  (genesis_chain test_data) (applied_quiet test_data)) as Hloop.
    destruct (add_blocks_to_chain _ _ _) as [tr [f|chain]];
      cbn [Run.outcome snd] in *; [congruence|].
    destruct (bypass test_data) eqn:Hbypass; cbn [andb] in Hout.
    + unfold bypass in Hbypass.
      destruct (TestData.ignore_pow_validation test_data), proof_of_stake; done.
    + exfalso. cbn [Run.outcome snd] in Hout. rewrite finish_cases in Hout.
      destruct (last _); [|done].
      by do 2 (case_bool_decide; [|done]).
Qed.

Lemma add_blocks_from_linked validator test_data blocks :
  quiet (fun ev => match ev with EvApply c b => Some (c, b) | _ => None end)
        validator ->
  forall idx chain,
    linked validator chain
      (applications (Run.trace (add_blocks_from validator test_data idx chain blocks))).
Proof.
  intros Hq. induction blocks as [|block rest IH]; intros idx chain; [done|].
  rewrite add_blocks_from_cons.
  destruct (TestData.block_header_hashes test_data !! idx) as [d|]; [|done].
  case_bool_decide; [|done].
  destruct (TestData.block_rlps test_data !! idx) as [d'|]; [|done].
  case_bool_decide; [|done].
  pose proof (run_engine_quiet _ validator (state_transition chain block) Hq) as He.
  destruct (run_engine validator (state_transition chain block)) as [tr [e|c]] eqn:Hrun;
    cbn [Run.trace fst] in *; unfold applications in *.
  - rewrite (RunFacts.omap_cons_Some _ _ _ (chain, block)) by done.
    rewrite He. by split.
  - rewrite (RunFacts.omap_cons_Some _ _ _ (chain, block)) by done.
    rewrite omap_app, He. cbn [app].
    specialize (IH (S idx) c).
    destruct (omap _ (Run.trace (add_blocks_from validator test_data (S idx) c rest)))
      as [|call calls]; [by split|].
    split; [done|]. exists c. by rewrite Hrun.
Qed.

(** X13. The harness hands the chain from one call of
    [state_transition] to the next untouched: the first call of a replay
    is on the chain made of the genesis block, the pre-state and the
    chain id, and every later call is on the chain the call before it
    returned with. *)
Theorem state_transition_calls_are_linked test_data :
  linked (validator_of test_data) (genesis_chain test_data)
    (applications (Run.trace (replay test_data))).
Proof.
  rewrite replay_cases. case_bool_decide; [|done].
  pose proof (add_blocks_from_linked (validator_of test_data) test_data
                (TestData.blocks test_data)
                (quiet_validator_of _ test_data (fun _ => eq_refl) (fun _ => eq_refl))
                0 (genesis_chain test_data)) as Hlinked.
  unfold add_blocks_to_chain.
  destruct (add_blocks_from _ _ _ _ _) as [tr [f|chain]]; cbn [Run.trace fst] in *;
    [done|].
  destruct (bypass test_data && _); cbn [Run.trace fst]; [done|].
  unfold applications in *.
  by rewrite omap_app, finish_quiet, app_nil_r.
Qed.
End Facts.
End ReplayMore.

(** ** The scenarios *)

Module ScenarioMore.
Import Replay ReplayFacts Shanghai Scenarios.

Lemma append_cons c a b : String c a +:+ b = String c (a +:+ b).
Proof. done. Qed.

Lemma prefix_app needle hay :
  String.prefix needle hay = true <-> exists post, hay = needle +:+ post.
Proof.
  revert hay. induction needle as [|a needle IH]; intros hay.
  - destruct hay; simpl; (split; [intros _; by eexists|done]).
  - destruct hay as [|b hay]; simpl.
    + split; [done|]. by intros [post ?].
    + destruct (ascii_dec a b) as [->|Hne].
      * rewrite IH. split; intros [post Hpost]; exists post;
          rewrite append_cons in *; congruence.
      * split; [done|]. intros [post Hpost]. rewrite append_cons in Hpost. congruence.
Qed.

(** [needle in hay] holds exactly of the strings that have [needle]
    somewhere inside. *)
Lemma str_contains_app needle hay :
  Py.str_contains needle hay = true
  <-> exists pre post, hay = pre +:+ needle +:+ post.
Proof.
  induction hay as [|c hay IH].
  - cbn [Py.str_contains]. rewrite orb_false_r, prefix_app. split.
    + intros [post Hpost]. by exists "", post.
    + intros (pre & post & Hhay). destruct pre; [|done]. by exists post.
  - cbn [Py.str_contains]. rewrite orb_true_iff, prefix_app, IH. split.
    + intros [[post Hpost]|(pre & post & Hhay)].
      * by exists "", post.
      * exists (String c pre), post. by rewrite append_cons, Hhay.
    + intros (pre & post & Hhay). destruct pre as [|c' pre];
        [|rewrite append_cons in Hhay].
      * left. by exists post.
      * right. exists pre, post. congruence.
Qed.

Section Facts.
Context `{Load}.
Implicit Types (test_data : TestData.t) (test_case : TestCase).

(** How the partial application of [run_blockchain_st_test] ends: with
    the exception of [load_test], or as the replay of what it decoded. *)
Lemma run_shanghai_cases fs test_case :
  run_shanghai_blockchain_st_tests fs test_case
  = match Decoder.load_test fs test_case with
    | inl e => inl e
    | inr test_data => Result.map_err exception (Run.outcome (replay test_data))
    end.
Proof.
  unfold run_shanghai_blockchain_st_tests, run_blockchain_st_test.
  destruct (Decoder.load_test fs test_case) as [e|test_data];
    cbn [Result.map_err]; [done|].
  change (Run.lift (inr test_data))
    with (@Run.ret Event ReplayFailure _ test_data).
  by rewrite RunFacts.bind_ret_l.
Qed.

Lemma pytest_raises_no_post_state target body :
  pytest_raises target body = inl NoPostState <-> body = inl NoPostState.
Proof.
  destruct body as [e|[]]; simpl; [|done].
  destruct e; simpl; try done.
  destruct (ethereum_subclass cls target); done.
Qed.

Lemma pytest_raises_inr target body :
  pytest_raises target body = inr tt
  <-> exists e, body = inl e /\ isinstance e target = true.
Proof.
  destruct body as [e|[]]; simpl.
  - destruct (isinstance e target) eqn:He.
    + split; [intros _; by exists e|done].
    + split; [done|]. intros (e' & [= <-] & He'). congruence.
  - split; [done|]. by intros (e & ? & _).
Qed.

Lemma report_xfailed body : report body = XFailed <-> body = inl NoPostState.
Proof. destruct body as [[]|[]]; simpl; split; congruence. Qed.

Lemma report_passed body : report body = Passed <-> body = inr tt.
Proof. destruct body as [[]|[]]; simpl; split; congruence. Qed.

Lemma test_4895_report fs test_case :
  test_general_state_tests_4895 fs test_case
  = report
      (if is_in_list test_case invalid_rlp_tests then
         pytest_raises "RLPDecodingError"
           (run_shanghai_blockchain_st_tests fs test_case)
       else if is_in_list test_case invalid_bounds_tests
               || is_in_list test_case invalid_block_tests then
         pytest_raises "InvalidBlock"
           (run_shanghai_blockchain_st_tests fs test_case)
       else run_shanghai_blockchain_st_tests fs test_case).
Proof.
  unfold test_general_state_tests_4895, report.
  destruct (is_in_list test_case invalid_rlp_tests); [done|].
  by destruct (is_in_list test_case invalid_bounds_tests).
Qed.

(** X14. Each of the three scenarios is reported as an expected failure
    exactly when [NoPostState] leaves the replay, whatever the lists of
    invalid tests say of the file: [pytest.raises] does not take that
    exception for the rejection it waits for. A test that [load_test]
    finds without a post-state is such a test. *)
Theorem expected_failure_is_no_post_state fs test_case :
  (test_general_state_tests_4895 fs test_case = XFailed
   <-> run_shanghai_blockchain_st_tests fs test_case = inl NoPostState)
  /\ (test_general_state_tests_3860 fs test_case = XFailed
      <-> run_shanghai_blockchain_st_tests fs test_case = inl NoPostState)
  /\ (test_execution_specs_generated_tests fs test_case = XFailed
      <-> run_shanghai_blockchain_st_tests fs test_case = inl NoPostState)
  /\ (Decoder.load_test fs test_case = inl NoPostState ->
      run_shanghai_blockchain_st_tests fs test_case = inl NoPostState).
Proof.
  split_and!.
  - rewrite test_4895_report, report_xfailed.
    destruct (is_in_list test_case invalid_rlp_tests);
      [by rewrite pytest_raises_no_post_state|].
    destruct (_ || _); [by rewrite pytest_raises_no_post_state|done].
  - apply report_xfailed.
  - unfold test_execution_specs_generated_tests. rewrite report_xfailed.
    destruct (_ && _); [by rewrite pytest_raises_no_post_state|done].
  - intros Hload. by rewrite run_shanghai_cases, Hload.
Qed.

(** X15. When a scenario passes. [test_general_state_tests_3860] passes
    exactly when the test decodes and its replay returns. On a file of
    its lists of invalid tests [test_general_state_tests_4895] passes
    exactly when an exception of the class named for the list left the
    run ([RLPDecodingError] for the first list, which is looked at
    first, [InvalidBlock] for the other two), on another file exactly
    when the run returned; so a listed file whose replay returns does
    not pass. [test_execution_specs_generated_tests] waits for
    [InvalidBlock] exactly when the path of the file has
    [withdrawals_use_value_in_tx] in it and the key is [000_shanghai]. *)
Theorem when_a_scenario_passes fs test_case :
  (test_general_state_tests_3860 fs test_case = Passed
   <-> exists test_data,
         Decoder.load_test fs test_case = inr test_data
         /\ Run.outcome (replay test_data) = inr tt)
  /\ (test_general_state_tests_4895 fs test_case = Passed
      <-> if is_in_list test_case invalid_rlp_tests then
            exists e, run_shanghai_blockchain_st_tests fs test_case = inl e
                      /\ isinstance e "RLPDecodingError" = true
          else if is_in_list test_case invalid_bounds_tests
                  || is_in_list test_case invalid_block_tests then
            exists e, run_shanghai_blockchain_st_tests fs test_case = inl e
                      /\ isinstance e "InvalidBlock" = true
          else run_shanghai_blockchain_st_tests fs test_case = inr tt)
  /\ (test_execution_specs_generated_tests fs test_case = Passed
      <-> if Py.str_contains "withdrawals_use_value_in_tx" (test_file test_case)
             && String.eqb (test_key test_case) "000_shanghai" then
            exists e, run_shanghai_blockchain_st_tests fs test_case = inl e
                      /\ isinstance e "InvalidBlock" = true
          else run_shanghai_blockchain_st_tests fs test_case = inr tt).
Proof.
  split_and!.
  - unfold test_general_state_tests_3860.
    rewrite report_passed, run_shanghai_cases.
    destruct (Decoder.load_test fs test_case) as [e|test_data].
    + split; [done|]. by intros (test_data & ? & _).
    + split.
      * intros Hout. exists test_data. split; [done|].
        by destruct (Run.outcome (replay test_data)) as [f|[]].
      * intros (test_data' & [= <-] & Hout). by rewrite Hout.
  - rewrite test_4895_report, report_passed.
    destruct (is_in_list test_case invalid_rlp_tests);
      [apply pytest_raises_inr|].
    destruct (_ || _); [apply pytest_raises_inr|done].
  - unfold test_execution_specs_generated_tests. rewrite report_passed.
    destruct (_ && _); [apply pytest_raises_inr|done].
Qed.

(** X16. [is_in_list] looks for the entries of the list anywhere in the
    path of the test file: it holds exactly when the path is some prefix,
    an entry of the list, and some suffix. The directory the files were
    found under and anything after the entry make no difference. *)
Theorem is_in_list_finds_an_entry_inside_the_path test_case test_list :
  is_in_list test_case test_list = true
  <-> exists entry pre post,
        entry ∈ test_list /\ test_file test_case = pre +:+ entry +:+ post.
Proof.
  unfold is_in_list. rewrite existsb_exists. split.
  - intros (entry & Hin & Hcontains).
    apply str_contains_app in Hcontains as (pre & post & Hfile).
    exists entry, pre, post. by rewrite list_elem_of_In.
  - intros (entry & pre & post & Hin & Hfile).
    exists entry. rewrite <- list_elem_of_In. split; [done|].
    apply str_contains_app. by exists pre, post.
Qed.
End Facts.
End ScenarioMore.

(** ** Test identifiers *)

Module IdsFacts.
Import Ids.

Lemma split_slash_cons c s :
  split_slash (String c s)
  = if Ascii.eqb c "/" then EmptyString :: split_slash s
    else match split_slash s with
         | piece :: pieces => String c piece :: pieces
         | [] => [String c EmptyString]
         end.
Proof. done. Qed.

Lemma split_slash_not_nil s : split_slash s <> [].
Proof.
  destruct s as [|c s]; simpl; [done|].
  destruct (Ascii.eqb c "/"); [done|]. by destruct (split_slash s).
Qed.

Lemma split_slash_free s : slash_free s = true -> split_slash s = [s].
Proof.
  induction s as [|c s IH]; simpl; [done|].
  destruct (Ascii.eqb c "/"); simpl; [done|].
  intros Hfree. by rewrite IH.
Qed.

(** The pieces of a string with a slash in it: those before the slash,
    then those after it. *)
Lemma split_slash_app a b :
  split_slash (a +:+ "/" +:+ b) = split_slash a ++ split_slash b.
Proof.
  induction a as [|c a IH]; [done|].
  rewrite ScenarioMore.append_cons, !split_slash_cons, IH.
  destruct (Ascii.eqb c "/"); [done|].
  pose proof (split_slash_not_nil a). by destruct (split_slash a).
Qed.

Lemma split_slash_pieces s :
  Forall (fun piece => slash_free piece = true) (split_slash s).
Proof.
  induction s as [|c s IH]; simpl; [by repeat constructor|].
  destruct (Ascii.eqb c "/") eqn:Hc; [by constructor|].
  destruct (split_slash s) as [|piece pieces]; [by repeat constructor; simpl; rewrite Hc|].
  inversion_clear IH. constructor; [|done]. simpl. by rewrite Hc.
Qed.

Lemma split_slash_length s :
  slash_free s = false -> 2 <= length (split_slash s).
Proof.
  induction s as [|c s IH]; simpl; [done|].
  pose proof (split_slash_not_nil s).
  destruct (Ascii.eqb c "/"); simpl.
  - intros _. destruct (split_slash s); [done|simpl; lia].
  - intros Hfree. specialize (IH Hfree).
    destruct (split_slash s); [done|]. simpl in *. lia.
Qed.

Lemma second_last_snoc {A} (xs : list A) x y :
  second_last (xs ++ [x; y]) = inr x.
Proof. unfold second_last. by rewrite rev_app_distr. Qed.

Lemma second_last_long {A} (xs : list A) :
  2 <= length xs -> exists x, second_last xs = inr x /\ x ∈ xs.
Proof.
  intros Hlen. unfold second_last.
  destruct (rev xs) as [|y [|x rest]] eqn:Hrev.
  - apply (f_equal length) in Hrev. rewrite length_rev in Hrev. simpl in Hrev. lia.
  - apply (f_equal length) in Hrev. rewrite length_rev in Hrev. simpl in Hrev. lia.
  - exists x. split; [done|].
    apply list_elem_of_In, in_rev, list_elem_of_In. rewrite Hrev.
    apply elem_of_cons. right. apply elem_of_cons. by left.
Qed.

(** X17. The identifier of a test case: for a test file in [folder]
    (the path is [folder/file], or [dir/folder/file] for any [dir],
    slashes in it or not) it is [folder - key]. The file name is no part
    of it, nor is the directory above the folder: two cases with the same
    key from files of folders of the same name get the same identifier. *)
Theorem idfn_names_the_folder_and_the_key test_case dir folder file :
  slash_free folder = true ->
  slash_free file = true ->
  test_file test_case = folder +:+ "/" +:+ file
  \/ test_file test_case = dir +:+ "/" +:+ folder +:+ "/" +:+ file ->
  idfn (ADict test_case) = inr (Some ((folder +:+ " - ") +:+ test_key test_case)).
Proof.
  intros Hfolder Hfile Hpath. unfold idfn.
  assert (exists pieces, split_slash (test_file test_case) = pieces ++ [folder; file])
    as [pieces ->].
  { destruct Hpath as [->| ->].
    - exists []. by rewrite split_slash_app, !split_slash_free.
    - exists (split_slash dir).
      by rewrite !split_slash_app, (split_slash_free folder),
        (split_slash_free file). }
  by rewrite second_last_snoc.
Qed.

(** X18. [idfn] on a dict raises [IndexError] exactly when the path of
    the test file has no slash; otherwise it returns an identifier that
    is a piece of the path without a slash, then [ - ], then the key.
    For a dict it never falls off its end. *)
Theorem idfn_needs_a_folder test_case :
  (slash_free (test_file test_case) = true ->
   idfn (ADict test_case) = inl IndexError)
  /\ (slash_free (test_file test_case) = false ->
      exists folder,
        idfn (ADict test_case)
        = inr (Some ((folder +:+ " - ") +:+ test_key test_case))
        /\ slash_free folder = true
        /\ folder ∈ split_slash (test_file test_case))
  /\ idfn (ADict test_case) <> inr None.
Proof.
  split_and!.
  - intros Hfree. unfold idfn. by rewrite split_slash_free.
  - intros Hfree. unfold idfn.
    destruct (second_last_long _ (split_slash_length _ Hfree)) as (folder & -> & Hin).
    exists folder. split_and!; [done| |done].
    pose proof (split_slash_pieces (test_file test_case)) as Hpieces.
    rewrite Forall_forall in Hpieces. by apply Hpieces.
  - unfold idfn. by destruct (second_last _).
Qed.
End IdsFacts.

(** ** The harness run on the small fork *)

Module Examples.
Import Discovery Replay ReplayFacts Shanghai.

#[local] Existing Instances Toy.types Toy.load Toy.re.

(** C1: a [NoProof] fixture of two blocks, the second with one ommer. The
    replay returns, and the mock was called three times, not once per
    block: on the two headers and then on the ommer's. *)
Lemma bypassed_replay_records_three_calls_for_two_blocks :
  let test_data := Toy.decoded Toy.good in
  TestData.ignore_pow_validation test_data = true
  /\ proof_of_stake = false
  /\ length (TestData.blocks test_data) = 2
  /\ Run.outcome (replay test_data) = inr tt
  /\ mock_calls (Run.trace (replay test_data))
     = [ {| Toy.number := 1; Toy.nonce := 7 |};
         {| Toy.number := 2; Toy.nonce := 7 |};
         {| Toy.number := 1; Toy.nonce := 9 |} ]
  /\ mock_calls (Run.trace (replay test_data))
     <> map header (TestData.blocks test_data).
Proof. vm_compute. split_and!; done. Qed.

Lemma pow_validator_is_mocked_witness :
  exists pre post,
    mock_calls (Run.trace (replay (Toy.decoded Toy.good)))
    = pre ++ map header (TestData.blocks (Toy.decoded Toy.good)) ++ post.
Proof.
  apply (pow_validator_is_mocked_and_its_calls_checked (Toy.decoded Toy.good));
    vm_compute; reflexivity.
Defined.

(** C2: the fork rejects the second block, and the replay ends with the
    exception without a call of [close_state]. *)
Lemma failed_replay_closes_no_state_store :
  let r := run_blockchain_st_test (Toy.fs_of Toy.bad_block) Toy.tc in
  Run.outcome r = inl (StateTransitionFailed 1 (Ethereum "InvalidBlock"))
  /\ closed (Run.trace r) = [].
Proof. vm_compute. by split. Qed.

(** C3: two blocks, the second with a header hash that is not the
    declared one. The replay fails as [BlockHashMismatch 1] and
    [state_transition] was entered for the first block only. *)
Lemma checks_precede_state_transition_witness :
  Run.outcome (replay (Toy.decoded Toy.bad_hash)) = inl (BlockHashMismatch 1)
  /\ applied (Run.trace (replay (Toy.decoded Toy.bad_hash)))
     = take 1 (TestData.blocks (Toy.decoded Toy.bad_hash)).
Proof.
  assert (Run.outcome (replay (Toy.decoded Toy.bad_hash)) = inl (BlockHashMismatch 1))
    as Hout by (vm_compute; reflexivity).
  split; [exact Hout|].
  apply (checks_precede_state_transition (Toy.decoded Toy.bad_hash)).
  left. exact Hout.
Defined.

(** C4: the second block does not extend the chain; the file is one of
    [invalid_block_tests], and the scenario passes. *)
Lemma rejected_block_fails_the_replay_witness :
  Run.outcome (run_blockchain_st_test (Toy.fs_of Toy.bad_block) Toy.tc)
  = inl (StateTransitionFailed 1 (Ethereum "InvalidBlock"))
  /\ applied (Run.trace (run_blockchain_st_test (Toy.fs_of Toy.bad_block) Toy.tc))
     = take 2 (TestData.blocks (Toy.decoded Toy.bad_block))
  /\ test_general_state_tests_4895 (Toy.fs_of Toy.bad_block) Toy.tc = Passed.
Proof.
  edestruct (ShanghaiFacts.rejected_block_fails_the_replay
               (Toy.fs_of Toy.bad_block) Toy.tc (Toy.decoded Toy.bad_block) 1)
    as (Hout & _ & Happlied & _ & _ & Htest).
  - vm_compute. reflexivity.
  - vm_compute. reflexivity.
  - vm_compute. reflexivity.
  - vm_compute. reflexivity.
  - split; vm_compute; reflexivity.
  - vm_compute. reflexivity.
  - split_and!; [exact Hout|exact Happlied|].
    rewrite Htest. vm_compute. reflexivity.
Defined.

(** C5: a fixture object with neither [blocks] nor [postState] ends
    [load_test] with [KeyError], not with [NoPostState]. *)
Lemma missing_blocks_precede_missing_post_state :
  Py.getitem Toy.only_network "postState" = inl (KeyError "postState")
  /\ Decoder.load_test (Toy.fs_of Toy.only_network) Toy.tc = inl (KeyError "blocks")
  /\ Decoder.load_test (Toy.fs_of Toy.only_network) Toy.tc <> inl NoPostState.
Proof. vm_compute. split_and!; done. Qed.

Lemma missing_post_state_follows_blocks_witness :
  Decoder.load_test (Toy.fs_of Toy.no_post_state) Toy.tc = inl NoPostState.
Proof.
  rewrite (DecoderFacts.missing_post_state_follows_blocks
             (Toy.fs_of Toy.no_post_state) Toy.tc
             (JObj [("t", Toy.no_post_state)]) Toy.no_post_state_items);
    vm_compute; reflexivity.
Defined.

(** C6: a header without [withdrawals_root], a declared genesis encoding
    that is not the encoding of the genesis block, and a replay that
    returns. *)
Lemma wrong_genesis_encoding_passes :
  let test_data := Toy.decoded Toy.bad_genesis_rlp in
  has_withdrawals_root (TestData.genesis_header test_data) = false
  /\ rlp_encode (genesis_block (TestData.genesis_header test_data))
     <> TestData.genesis_block_rlp test_data
  /\ Run.outcome (replay test_data) = inr tt.
Proof. vm_compute. split_and!; done. Qed.

(** C8: the fixture of two blocks decodes to three sequences of length
    two. *)
Lemma decoded_sequences_have_equal_length_witness :
  length (TestData.blocks (Toy.decoded Toy.good))
  = length (TestData.block_header_hashes (Toy.decoded Toy.good))
  /\ length (TestData.block_header_hashes (Toy.decoded Toy.good))
     = length (TestData.block_rlps (Toy.decoded Toy.good)).
Proof.
  edestruct (decoded_sequences_have_equal_length
               (Toy.fs_of Toy.good) Toy.tc (Toy.decoded Toy.good))
    as (Hh & Hr & _).
  - vm_compute. reflexivity.
  - by split.
Defined.

(** C9: a slow pattern that does not compile. *)
Lemma invalid_pattern_fails_before_any_file_witness :
  exists q,
    q ∈ ["("] ++ [] ++ ["x\.json"]
    /\ re_compile q = None
    /\ fetch_state_test_files (Toy.fs_of Toy.good) "tests" "Shanghai" []
         ["("] [] ["x\.json"]
       = ([], inl (ReError q)).
Proof.
  apply (DiscoveryFacts.invalid_pattern_fails_before_any_file
           (Toy.fs_of Toy.good) "tests" "Shanghai" [] ["("] [] ["x\.json"] "(").
  - apply list_elem_of_In. vm_compute. by left.
  - vm_compute. reflexivity.
Defined.

(** C10: a file with one test for Shanghai and one test object without
    [network] yields what the file with the first test alone yields. *)
Lemma test_without_network_takes_no_part_witness :
  load_json_fixture
    (Toy.one_file "x.json"
       (JObj [("a", Toy.good); ("b", JObj [("pre", JNum 1)])])) "x.json" "Shanghai"
  = load_json_fixture
      (Toy.one_file "x.json" (JObj [("a", Toy.good)])) "x.json" "Shanghai".
Proof.
  apply (proj1 DiscoveryFacts.test_without_network_takes_no_part
           (Toy.one_file "x.json"
              (JObj [("a", Toy.good); ("b", JObj [("pre", JNum 1)])]))
           (Toy.one_file "x.json" (JObj [("a", Toy.good)]))
           "x.json" "Shanghai" [("a", Toy.good)] "b" [("pre", JNum 1)] []
           [] [] []);
    vm_compute; reflexivity.
Defined.

(** X1: a file with a Shanghai test that a slow pattern matches, a
    Shanghai test that an ignore pattern matches and a Berlin test yields
    the first, tagged slow. *)
Lemma fetch_yields_participating_keys_witness :
  yielded
    (fetch_state_test_files
       (Toy.one_file "t/x.json"
          (JObj [("a", Toy.good); ("b", Toy.only_network);
                 ("c", JObj [("network", JStr "Berlin")])]))
       "t" "Shanghai" ["x.json"] ["|a)"] [] ["|b)"])
  = [ {| case := {| test_file := "t/x.json"; test_key := "a" |};
         marks := Some slow |} ].
Proof.
  edestruct (DiscoveryFacts.fetch_yields_participating_keys
               (Toy.one_file "t/x.json"
                  (JObj [("a", Toy.good); ("b", Toy.only_network);
                         ("c", JObj [("network", JStr "Berlin")])]))
               "t" "Shanghai" ["x.json"] ["|a)"] [] ["|b)"])
    as (_ & _ & Hyielded).
  - done.
  - vm_compute. reflexivity.
  - vm_compute. reflexivity.
  - vm_compute. reflexivity.
  - constructor; [|constructor].
    eexists. split_and!.
    + vm_compute. reflexivity.
    + repeat (constructor; [by eexists|]). constructor.
    + right. vm_compute. reflexivity.
  - rewrite Hyielded. vm_compute. reflexivity.
Defined.

(** X2: on the fork that validates the header's seal only, the fixture
    of two blocks records two calls. *)
Lemma bypassed_replay_records_one_call_per_block_witness :
  @mock_calls Toy.types
    (Run.trace (@replay Toy.types Toy.load_once (Toy.decoded Toy.good)))
  = map header (TestData.blocks (Toy.decoded Toy.good)).
Proof.
  apply (@bypassed_replay_records_one_call_per_block Toy.types Toy.load_once
           (Toy.decoded Toy.good)).
  - intros chain block. eexists. split; [reflexivity|].
    intros [e|]; [done|]. simpl.
    by destruct (_ =? _)%nat.
  - vm_compute. reflexivity.
  - vm_compute. reflexivity.
  - vm_compute. reflexivity.
Defined.

(** X3: the case yielded for the test [a] of [t/x.json]. *)
Lemma yielded_cases_take_part_witness :
  exists items test declared,
    read_json (Toy.one_file "t/x.json" Toy.three_tests) "t/x.json" = inr (JObj items)
    /\ ("a", test) ∈ items
    /\ Py.getitem test "network" = inr declared
    /\ Py.eq_str declared "Shanghai" = true.
Proof.
  destruct (DiscoveryMore.yielded_cases_take_part
              (Toy.one_file "t/x.json" Toy.three_tests)
              "t" "Shanghai" ["x.json"] ["|a)"] [] ["|b)"]
              {| case := {| test_file := "t/x.json"; test_key := "a" |};
                 marks := Some slow |})
    as (all_slow & all_big_memory & all_ignore & items & test & declared
        & _ & _ & _ & Hread & Hin & Hget & Heq & _).
  - apply list_elem_of_In. vm_compute. by left.
  - by exists items, test, declared.
Defined.

(** X4: a walk that finds two files, one of which an ignore pattern
    matches: the other is opened, and it alone. *)
Lemma walk_opens_the_files_not_ignored_witness :
  opened (fetch_state_test_files
            (Toy.walked ["t/x.json"; "t/skip.json"] "t/x.json" Toy.three_tests)
            "t" "Shanghai" [] ["|a)"] [] ["skip"])
  = ["t/x.json"]
  /\ "t/skip.json"
     ∉ opened (fetch_state_test_files
                 (Toy.walked ["t/x.json"; "t/skip.json"] "t/x.json" Toy.three_tests)
                 "t" "Shanghai" [] ["|a)"] [] ["skip"]).
Proof.
  edestruct (DiscoveryMore.walk_opens_the_files_not_ignored
               (Toy.walked ["t/x.json"; "t/skip.json"] "t/x.json" Toy.three_tests)
               "t" "Shanghai" ["|a)"] [] ["skip"])
    as (_ & Hopened & Hignored).
  - vm_compute. reflexivity.
  - vm_compute. reflexivity.
  - vm_compute. reflexivity.
  - assert (filter (fun full_path => any_search ["skip"] full_path = false)
              (walk_json
                 (Toy.walked ["t/x.json"; "t/skip.json"] "t/x.json" Toy.three_tests)
                 "t")
            = ["t/x.json"]) as -> by (vm_compute; reflexivity).
    constructor; [|constructor].
    eexists. split_and!.
    + vm_compute. reflexivity.
    + repeat (constructor; [by eexists|]). constructor.
    + right. vm_compute. reflexivity.
  - split; [exact Hopened|].
    apply Hignored. vm_compute. reflexivity.
Defined.

(** X5: the second file of the list does not exist. Its [OSError] ends
    the discovery after the case of the first file; the third file is
    not opened. *)
Lemma bad_file_ends_discovery_witness :
  Run.outcome
    (fetch_state_test_files (Toy.one_file "t/x.json" Toy.three_tests)
       "t" "Shanghai" ["x.json"; "missing.json"; "x.json"] ["|a)"] [] ["|b)"])
  = inl (OSError "t/missing.json")
  /\ opened
       (fetch_state_test_files (Toy.one_file "t/x.json" Toy.three_tests)
          "t" "Shanghai" ["x.json"; "missing.json"; "x.json"] ["|a)"] [] ["|b)"])
     = ["t/x.json"; "t/missing.json"].
Proof.
  edestruct (DiscoveryMore.bad_file_ends_discovery
               (Toy.one_file "t/x.json" Toy.three_tests)
               "t" "Shanghai" ["x.json"] "missing.json" ["x.json"]
               ["|a)"] [] ["|b)"])
    as (Hout & Hopened & _).
  - vm_compute. reflexivity.
  - vm_compute. reflexivity.
  - vm_compute. reflexivity.
  - constructor; [|constructor].
    eexists. split_and!.
    + vm_compute. reflexivity.
    + repeat (constructor; [by eexists|]). constructor.
    + right. vm_compute. reflexivity.
  - vm_compute. reflexivity.
  - done.
  - split; [exact Hout|]. exact Hopened.
Defined.

(** X6: a file whose second value is [null]. *)
Lemma test_values_that_are_no_object_witness :
  found_keys [("a", Toy.good); ("b", JNull); ("c", Toy.good)] "Shanghai"
  = inl TypeError.
Proof.
  apply (proj2 DiscoveryMore.test_values_that_are_no_object
           [("a", Toy.good)] "b" JNull [("c", Toy.good)] "Shanghai" ["a"]).
  - vm_compute. reflexivity.
  - done.
  - done.
Defined.

(** X7: the fixture sealed with [NoProof], whose genesis header has no
    [chainId]. *)
Lemma flag_and_chain_id_of_a_decoded_test_witness :
  exists data json_data genesis_items seal,
    read_json (Toy.fs_of Toy.good) (test_file Toy.tc) = inr data
    /\ Py.getitem data (test_key Toy.tc) = inr json_data
    /\ TestData.test_file (Toy.decoded Toy.good) = test_file Toy.tc
    /\ TestData.test_key (Toy.decoded Toy.good) = test_key Toy.tc
    /\ Py.getitem json_data "sealEngine" = inr seal
    /\ (TestData.ignore_pow_validation (Toy.decoded Toy.good) = true
        <-> seal = JStr "NoProof")
    /\ Py.getitem json_data "genesisBlockHeader" = inr (JObj genesis_items)
    /\ U64 (default (JNum 1) (Py.assoc "chainId" genesis_items))
       = inr (TestData.chain_id (Toy.decoded Toy.good)).
Proof.
  apply (DecoderMore.flag_and_chain_id_of_a_decoded_test
           (Toy.fs_of Toy.good) Toy.tc (Toy.decoded Toy.good)).
  vm_compute. reflexivity.
Defined.

(** X8: a fixture object without [postState]. *)
Lemma missing_required_field_fails_witness :
  exists e, Decoder.load_test (Toy.fs_of Toy.no_post_state) Toy.tc = inl e.
Proof.
  apply (DecoderMore.missing_required_field_fails
           (Toy.fs_of Toy.no_post_state) Toy.tc
           (JObj [("t", Toy.no_post_state)]) Toy.no_post_state "postState").
  - vm_compute. reflexivity.
  - vm_compute. reflexivity.
  - apply list_elem_of_In. vm_compute. tauto.
  - intros value. vm_compute. discriminate.
Defined.

(** X9: the fixture of two blocks with and without its [network]. *)
Lemma unread_field_changes_nothing_witness :
  Decoder.load_test (Toy.fs_of Toy.good) Toy.tc
  = Decoder.load_test (Toy.fs_of (JObj Toy.good_without_network)) Toy.tc.
Proof.
  apply (DecoderMore.unread_field_changes_nothing
           (Toy.fs_of Toy.good) (Toy.fs_of (JObj Toy.good_without_network)) Toy.tc
           (JObj [("t", Toy.good)]) (JObj [("t", JObj Toy.good_without_network)])
           [] "network" (JStr "Shanghai") Toy.good_without_network).
  - intros Hin%list_elem_of_In. vm_compute in Hin. intuition discriminate.
  - vm_compute. reflexivity.
  - vm_compute. reflexivity.
  - vm_compute. reflexivity.
  - vm_compute. reflexivity.
Defined.

(** X10: the fixture of two blocks, whose replay returns. *)
Lemma returned_replay_checked_everything_witness :
  applied (Run.trace (replay (Toy.decoded Toy.good)))
  = TestData.blocks (Toy.decoded Toy.good)
  /\ exists chain last_block,
       Run.outcome (add_blocks_to_chain (validator_of (Toy.decoded Toy.good))
                      (genesis_chain (Toy.decoded Toy.good))
                      (Toy.decoded Toy.good)) = inr chain
       /\ last (BlockChain.blocks chain) = Some last_block
       /\ rlp_hash (header last_block)
          = TestData.last_block_hash (Toy.decoded Toy.good)
       /\ BlockChain.state chain
          = TestData.expected_post_state (Toy.decoded Toy.good).
Proof.
  destruct (ReplayMore.returned_replay_checked_everything (Toy.decoded Toy.good))
    as (_ & Happlied & _ & Hchain).
  - vm_compute. reflexivity.
  - by split.
Defined.

(** X11: a fixture without blocks whose genesis header has the declared
    last hash and whose post-state is its pre-state. *)
Lemma replay_without_blocks_witness :
  applied (Run.trace (replay (Toy.decoded Toy.no_blocks))) = []
  /\ Run.outcome (replay (Toy.decoded Toy.no_blocks)) = inr tt.
Proof.
  destruct (ReplayMore.replay_without_blocks (Toy.decoded Toy.no_blocks))
    as (Happlied & _ & _ & Hout).
  - vm_compute. reflexivity.
  - split; [exact Happlied|].
    apply Hout. split_and!; vm_compute; reflexivity.
Defined.

(** X12: the fixture of two blocks with another expected post-state. *)
Lemma late_failures_follow_every_block_witness :
  applied (Run.trace (replay (Toy.decoded Toy.bad_post_state)))
  = TestData.blocks (Toy.decoded Toy.bad_post_state).
Proof.
  destruct (ReplayMore.late_failures_follow_every_block
              (Toy.decoded Toy.bad_post_state) PostStateMismatch)
    as (_ & Happlied & _).
  - vm_compute. reflexivity.
  - apply list_elem_of_In. vm_compute. tauto.
  - exact Happlied.
Defined.

(** X17: the identifier of the test [t] of the file
    [incorrectWithdrawalsRoot.json]. *)
Lemma idfn_names_the_folder_and_the_key_witness :
  Ids.idfn (Ids.ADict Toy.tc) = inr (Some "bc4895-withdrawals - t").
Proof.
  apply (IdsFacts.idfn_names_the_folder_and_the_key Toy.tc
           "tests/fixtures/BlockchainTests/EIPTests"
           "bc4895-withdrawals" "incorrectWithdrawalsRoot.json").
  - vm_compute. reflexivity.
  - vm_compute. reflexivity.
  - right. vm_compute. reflexivity.
Defined.

(** X18: a test file named without a folder. *)
Lemma idfn_needs_a_folder_witness :
  Ids.idfn (Ids.ADict {| test_file := "x.json"; test_key := "a" |})
  = inl IndexError.
Proof.
  apply (proj1 (IdsFacts.idfn_needs_a_folder
                  {| test_file := "x.json"; test_key := "a" |})).
  vm_compute. reflexivity.
Defined.
End Examples.
